(** * xcube_sh.geodb: the feature-collection services, embedded and verified

    A shallow embedding of [src/xcube_sh/geodb.py]: the local, file-backed
    service ([LocalGeoDBService]) and the remote PostGIS service
    ([RemoteGeoPostgreSQLService]), together with the properties that the
    specification states about them.

    Conventions.
    - A Python call that may raise returns an [outcome]; code that talks to the
      database connection threads the service object explicitly and returns
      the service together with the [outcome], because the effects of the
      statements already sent survive an exception.
    - Python [str] is [string]; [int] is [Z]; a [dict] whose order is
      observed (the properties of a feature) is an association list, a
      [dict] that is only looked up is a [gmap].
    - The interpreter's [compile]/[eval], the [json] module and the database
      driver are collaborators of the module, not part of it: they are the
      interfaces [Evaluator], [JsonModule] and [Connection]. *)

From Stdlib Require Import ZArith Ascii String DecimalString.
From stdpp Require Import base option list strings gmap.

Local Open Scope Z_scope.

(** ** Python values and exceptions *)

(** The exception classes that occur in the module or that the collaborators
    raise.  [SystemExit] and [KeyboardInterrupt] derive from [BaseException]
    only, so an [except Exception] clause lets them through. *)
Inductive exn : Type :=
| TypeError (msg : string)
| SyntaxError (msg : string)
| NameError (msg : string)
| ValueError (msg : string)
| KeyError (key : string)
| IndexError
| NotImplementedError (msg : string)
| FileNotFoundError (msg : string)
| DatabaseError (msg : string)
| ProgrammingError (msg : string)
| SystemExit
| KeyboardInterrupt.

Definition is_Exception (e : exn) : bool :=
  match e with
  | SystemExit | KeyboardInterrupt => false
  | _ => true
  end.

Inductive outcome (A : Type) : Type :=
| Ok (a : A)
| Raise (e : exn).
Arguments Ok {A} a.
Arguments Raise {A} e.

Definition rbind {A B} (r : outcome A) (k : A -> outcome B) : outcome B :=
  match r with
  | Ok a => k a
  | Raise e => Raise e
  end.

Declare Scope py_scope.
Delimit Scope py_scope with py.
Notation "x <- r ;; k" := (rbind r (fun x => k))
  (at level 100, r at next level, right associativity) : py_scope.
Local Open Scope py_scope.

Definition is_Ok {A} (r : outcome A) : bool :=
  match r with Ok _ => true | Raise _ => false end.

(** Scalar values: what a feature property or a bounding-box corner holds.
    A [float] is carried by the text that [repr] prints for it, which is all
    the module observes of a float besides its class and its truth value. *)
Inductive scalar : Type :=
| PNone
| PBool (b : bool)
| PInt (z : Z)
| PFloat (repr : string)
| PStr (s : string).

(** [str(n)] for an [int]. *)
Definition str_int (z : Z) : string := NilZero.string_of_int (Z.to_int z).

(** [str(v)], which is also what an f-string writes for [{v}]. *)
Definition py_str (v : scalar) : string :=
  match v with
  | PNone => "None"
  | PBool true => "True"
  | PBool false => "False"
  | PInt z => str_int z
  | PFloat r => r
  | PStr s => s
  end.

(** Truth value testing. *)
Definition truthy (v : scalar) : bool :=
  match v with
  | PNone => false
  | PBool b => b
  | PInt z => negb (Z.eqb z 0)
  | PFloat r => negb (String.eqb r "0.0" || String.eqb r "-0.0")
  | PStr s => negb (String.eqb s "")
  end.

Definition truthy_str (q : option string) : bool :=
  match q with
  | Some s => negb (String.eqb s "")
  | None => false
  end.

Definition truthy_seq {A} (l : option (list A)) : bool :=
  match l with
  | Some (_ :: _) => true
  | _ => false
  end.

(** [l[i]] on a sequence. *)
Definition index {A} (l : list A) (i : nat) : outcome A :=
  match l !! i with
  | Some a => Ok a
  | None => Raise IndexError
  end.

(** ** String helpers of the Python runtime *)

(** [sub in s]. *)
Fixpoint contains (sub s : string) : bool :=
  String.prefix sub s ||
  match s with
  | EmptyString => false
  | String _ s' => contains sub s'
  end.

(** [s.split(sep)] for a one-character separator. *)
Fixpoint split (sep : ascii) (s : string) : list string :=
  match s with
  | EmptyString => [EmptyString]
  | String c s' =>
      if Ascii.eqb c sep then EmptyString :: split sep s'
      else match split sep s' with
           | piece :: pieces => String c piece :: pieces
           | [] => [String c EmptyString]
           end
  end.

(** [sep.join(l)]. *)
Fixpoint join (sep : string) (l : list string) : string :=
  match l with
  | [] => ""
  | [s] => s
  | s :: l' => s +:+ sep +:+ join sep l'
  end.

(** [s.lower()] on the ASCII letters. *)
Definition lower_ascii (c : ascii) : ascii :=
  let n := nat_of_ascii c in
  if (Nat.leb 65 n && Nat.leb n 90)%bool then ascii_of_nat (n + 32) else c.

Fixpoint lower (s : string) : string :=
  match s with
  | EmptyString => EmptyString
  | String c s' => String (lower_ascii c) (lower s')
  end.

Definition dq : string := String "034"%char EmptyString.
Definition nl : string := String "010"%char EmptyString.
Definition tab : string := String "009"%char EmptyString.

(** ** The query translator: [RemoteGeoPostgreSQLService._alter_query] *)

Definition BBox : Type := list scalar.

(** Lines 266-282: the polygon literal and the spatial predicate. *)
Definition srid_tag (srid : option Z) : string :=
  match srid with
  | Some n => "SRID=" +:+ str_int n +:+ ";"
  | None => ""
  end.

Definition polygon (minx miny maxx maxy : scalar) : string :=
  "POLYGON((" +:+ py_str minx +:+ " " +:+ py_str miny +:+ ","
              +:+ py_str minx +:+ " " +:+ py_str maxy +:+ ","
              +:+ py_str maxx +:+ " " +:+ py_str maxy +:+ ","
              +:+ py_str maxx +:+ " " +:+ py_str miny +:+ ","
              +:+ py_str minx +:+ " " +:+ py_str miny +:+ "))".

Definition region (minx miny maxx maxy : scalar) (srid : option Z) : string :=
  " " +:+ srid_tag srid +:+ polygon minx miny maxx maxy +:+ "::geometry".

Definition bbox_query_of (bbox : BBox) (bbox_mode : string) (srid : option Z)
  : outcome string :=
  minx <- index bbox 0 ;;
  miny <- index bbox 1 ;;
  maxx <- index bbox 2 ;;
  maxy <- index bbox 3 ;;
  let bbox := region minx miny maxx maxy srid in
  if String.eqb bbox_mode "contains" then
    Ok (" ST_Contains('" +:+ bbox +:+ "', geometry)")
  else if String.eqb bbox_mode "within" then
    Ok (" ST_Within('" +:+ bbox +:+ "', geometry)")
  else Raise (ValueError ("bbox_mode " +:+ bbox_mode +:+ " unknown")).

(** Lines 263-302.  [q] and [b] are the texts of [query] and [bbox_query]
    where these are set; the last branch stands for the fall-through of the
    [if]/[elif] chain, which no input reaches. *)
Definition _alter_query (query : option string) (bbox : option BBox)
    (bbox_mode fmt : string) (srid : option Z) : outcome string :=
  bbox_query <-
    match bbox with
    | Some ((_ :: _) as corners) =>
        b <- bbox_query_of corners bbox_mode srid ;; Ok (Some b)
    | _ => Ok None
    end ;;
  let q := default "" query in
  let b := default "" bbox_query in
  if negb (truthy_str query) && negb (truthy_str bbox_query) then
    Ok "TRUE"
  else if truthy_str query && negb (truthy_str bbox_query) then
    if String.eqb fmt "geojson" then Ok ("properties->>" +:+ q)
    else if String.eqb fmt "geopandas" then Ok q
    else Raise (ValueError ("format " +:+ fmt +:+ " not known"))
  else if negb (truthy_str query) && truthy_str bbox_query then
    Ok b
  else if truthy_str query && truthy_str bbox_query then
    if String.eqb fmt "geojson" then
      Ok ("properties->>" +:+ q +:+ " and " +:+ b)
    else if String.eqb fmt "geopandas" then Ok (q +:+ " and " +:+ b)
    else Raise (ValueError ("format " +:+ fmt +:+ " not known"))
  else Ok q.

(** ** Features and collections *)

#[local] Set Warnings "-register-all".

(** A GeoJSON-shaped value, as the [json] module sees it. *)
Inductive json : Type :=
| JScalar (v : scalar)
| JArray (items : list json)
| JObject (members : list (string * json)).

(** A feature is a mapping; the module reads three of its keys.  A field is
    [None] when the key is absent.  The properties keep their order, which
    the INSERT statement of the remote service shows. *)
Record Feature : Type := {
  f_id : option scalar;
  f_properties : option (list (string * scalar));
  f_geometry : option json
}.

(** A schema: the module reads its key [properties], name to descriptor. *)
Record Schema : Type := {
  s_properties : option (list (string * string))
}.

(** [d[key]] and [d.get(key)] on a dict kept as an association list. *)
Fixpoint assoc {V} (key : string) (d : list (string * V)) : option V :=
  match d with
  | [] => None
  | (k, v) :: d' => if String.eqb k key then Some v else assoc key d'
  end.

(** [d.update(items)]. *)
Definition dict_update (d : gmap string scalar) (items : list (string * scalar))
  : gmap string scalar :=
  foldl (fun m kv => <[kv.1 := kv.2]> m) d items.

(** ** The interpreter, as far as the local service uses it *)

(** [compile(text, 'query', 'eval')] on a [str] and [eval(code, None, locals)].
    The value of a filter expression is taken to be a scalar. *)
Class Evaluator : Type := {
  code : Type;
  compile_str : string -> outcome code;
  eval : code -> gmap string scalar -> outcome scalar
}.

(** [compile] checks the class of its first argument before it parses. *)
Definition compile `{Evaluator} (source : option string) : outcome code :=
  match source with
  | None => Raise (TypeError "compile() arg 1 must be a string, bytes or AST object")
  | Some text => compile_str text
  end.

(** ** The local service *)

Module LocalGeoDBService.
Section Local.
Context `{Evaluator}.

(** The directory of [.geojson] files: collection name to file content. *)
Variable geodb : gmap string (list Feature).

Definition _get_collection (collection_name : string) : outcome (list Feature) :=
  match geodb !! collection_name with
  | Some features => Ok features
  | None =>
      Raise (FileNotFoundError
               ("Could not find file " +:+ collection_name +:+ ".geojson"))
  end.

(** Line 127-128: the variables the expression sees. *)
Definition _locals (feature : Feature) : gmap string scalar :=
  let base : gmap string scalar :=
    match f_id feature with
    | Some i => if truthy i then {[ "id" := i ]} else ∅
    | None => ∅
    end in
  dict_update base (default [] (f_properties feature)).

(** Lines 126-131: the [try] block with its [except Exception] clause. *)
Definition eval_feature (compiled_query : code) (feature : Feature)
  : outcome scalar :=
  match eval compiled_query (_locals feature) with
  | Ok result => Ok result
  | Raise e => if is_Exception e then Ok (PBool false) else Raise e
  end.

(** Lines 124-136: the loop, with [result_set] as accumulator. *)
Fixpoint find_loop (compiled_query : code) (max_records : Z)
    (collection : list Feature) (result_set : list Feature)
  : outcome (list Feature) :=
  match collection with
  | [] => Ok result_set
  | feature :: collection' =>
      result <- eval_feature compiled_query feature ;;
      if truthy result then
        let result_set := result_set ++ [feature] in
        if Z.of_nat (List.length result_set) >=? max_records then Ok result_set
        else find_loop compiled_query max_records collection' result_set
      else find_loop compiled_query max_records collection' result_set
  end.

Definition find_features (collection_name : string) (query : option string)
    (max_records : Z) (fmt : string) (bbox : option BBox)
    (bbox_mode : string) (bbox_crs : Z) : outcome (list Feature) :=
  if truthy_seq bbox then
    Raise (NotImplementedError "bbox feature not implemented for driver local")
  else
    compiled_query <- compile query ;;
    collection <- _get_collection collection_name ;;
    find_loop compiled_query max_records collection [].

Definition find_feature (collection_name : string) (query : option string)
    (fmt : string) (bbox : option BBox) (bbox_mode : string) (bbox_crs : Z)
  : outcome (option Feature) :=
  features <- find_features collection_name query 1 fmt bbox bbox_mode bbox_crs ;;
  Ok (head features).

(** Lines 138-148: the operations the local service does not have.  The
    message of [add_features] names [new_collection], as the source does. *)
Definition new_collection (collection_name : string) (schema : Schema)
  : outcome string :=
  Raise (NotImplementedError "new_collection not yet implemented").

Definition drop_collection (collection_name : string) : outcome unit :=
  Raise (NotImplementedError "drop_collection not yet implemented").

Definition add_feature (collection_name : string) (feature : Feature)
  : outcome string :=
  Raise (NotImplementedError "add_feature not yet implemented").

Definition add_features (collection_name : string) (features : list Feature)
  : outcome string :=
  Raise (NotImplementedError "new_collection not yet implemented").

End Local.
End LocalGeoDBService.

(** ** The database driver and the [json] module *)

Definition Row : Type := list scalar.

(** What a cursor holds after [execute]: the row count, and the rows of the
    result set.  A statement that is no query (an INSERT, a CREATE, a DROP)
    leaves no result set: [rows] is [None]. *)
Record Cursor : Type := {
  rowcount : Z;
  rows : option (list Row)
}.

(** [cur.fetchone()] and [cur.fetchall()]: the driver raises
    [ProgrammingError] on a cursor without a result set. *)
Definition fetchone (cur : Cursor) : outcome (option Row) :=
  match rows cur with
  | Some answer => Ok (head answer)
  | None => Raise (ProgrammingError "no results to fetch")
  end.

Definition fetchall (cur : Cursor) : outcome (list Row) :=
  match rows cur with
  | Some answer => Ok answer
  | None => Raise (ProgrammingError "no results to fetch")
  end.

(** The connection object: [cursor().execute(sql)], which may raise and in
    any case leaves the connection in a new state, and [commit()]. *)
Class Connection (C : Type) : Type := {
  execute : C -> string -> C * outcome Cursor;
  commit : C -> C
}.

Class JsonModule : Type := {
  json_dumps : json -> outcome string
}.

(** ** SQL templates *)

Definition _FILTER_SQL (collection query max : string) : string :=
  String.concat ""
    [ "SELECT  json_build_object("; nl;
      "        'type', 'Feature',"; nl;
      tab; "    'properties', properties::json,"; nl;
      "        'geometry', ST_AsGeoJSON(geometry)::json"; nl;
      "        )"; nl;
      "        FROM "; dq; collection; dq; " "; nl;
      "        WHERE "; query; " "; max ].

Definition _FILTER_LONG_SQL (collection query max : string) : string :=
  String.concat ""
    [ "SELECT  *"; nl;
      "        FROM "; dq; collection; dq; " "; nl;
      "        WHERE "; query; " "; max ].

Definition _GET_TABLES_SQL : string :=
  String.concat ""
    [ "SELECT t.table_name"; nl;
      "        FROM information_schema.tables t"; nl;
      "        INNER JOIN information_schema.columns c on c.table_name = t.table_name "; nl;
      "                                        and c.table_schema = t.table_schema"; nl;
      "        WHERE c.column_name = 'properties'"; nl;
      "              AND t.table_schema not in ('information_schema', 'pg_catalog')"; nl;
      "              AND t.table_type = 'BASE TABLE'"; nl;
      "              "; nl;
      "        ORDER BY t.table_schema;" ].

Definition _TABLE_EXISTS_SQL (collection : string) : string :=
  String.concat ""
    [ "SELECT EXISTS ("; nl;
      "            SELECT 1"; nl;
      "            FROM   information_schema.tables"; nl;
      "            WHERE  table_schema = 'public'"; nl;
      "            AND    table_name = '"; collection; "')" ].

Definition _DROP_COLLECTION_SQL (collection : string) : string :=
  "DROP TABLE " +:+ collection.

Definition _CREATE_COLLECTION_SQL (collection columns : string) : string :=
  String.concat ""
    [ "            -- Table: public."; collection; nl;
      nl;
      "            -- DROP TABLE public."; collection; ";"; nl;
      "            "; nl;
      "            CREATE TABLE public."; collection; nl;
      "            ("; nl;
      "                -- Inherited from table public.geodb_master: ";
      "id integer NOT NULL DEFAULT nextval('geodb_seq1'::regclass),"; nl;
      "                -- Inherited from table public.geodb_master: properties json,"; nl;
      "                -- Inherited from table public.geodb_master: ";
      "name character varying(512) COLLATE pg_catalog."; dq; "default"; dq; ","; nl;
      "                -- Inherited from table public.geodb_master: ";
      "geometry geometry,"; nl;
      "                -- Inherited from table public.geodb_master: ";
      "type character varying COLLATE pg_catalog."; dq; "default"; dq; " NOT NULL"; nl;
      "                "; columns; nl;
      "            )"; nl;
      "                INHERITS (public.geodb_master)"; nl;
      "            WITH ("; nl;
      "                OIDS = FALSE"; nl;
      "            )"; nl;
      "            TABLESPACE pg_default;"; nl;
      "            "; nl;
      "            ALTER TABLE public."; collection; nl;
      "                OWNER to postgres;"; nl;
      "            " ].

Definition _GET_SRID_SQL (collection : string) : string :=
  "SELECT  ST_SRID(geometry) FROM " +:+ collection +:+ " LIMIT 1;".

(** ** The column-type mapper: [_make_column] *)

Definition _make_column (name typ : string) : outcome string :=
  if String.eqb typ "str" then
    Ok (name +:+ " character varying(256) COLLATE pg_catalog."
             +:+ dq +:+ "default" +:+ dq)
  else if contains "int" typ then
    Ok (name +:+ " integer")
  else if contains "float" typ then
    let _local := split ":" typ in
    let _local :=
      if Nat.eqb (List.length _local) 2 then split "." (nth 1 _local "")
      else _local in
    let prec_str :=
      if Nat.eqb (List.length _local) 2 then
        "(" +:+ nth 0 _local "" +:+ "," +:+ nth 1 _local "" +:+ ")"
      else "" in
    Ok (name +:+ " numeric" +:+ prec_str)
  else Raise (NotImplementedError ("Column type " +:+ typ +:+ " not implemented")).

(** Lines 449-465: [_make_insert_column], a second copy of the mapper. *)
Definition _make_insert_column (name typ : string) : outcome string :=
  if String.eqb typ "str" then
    Ok (name +:+ " character varying(256) COLLATE pg_catalog."
             +:+ dq +:+ "default" +:+ dq)
  else if contains "int" typ then
    Ok (name +:+ " integer")
  else if contains "float" typ then
    let _local := split ":" typ in
    let _local :=
      if Nat.eqb (List.length _local) 2 then split "." (nth 1 _local "")
      else _local in
    let prec_str :=
      if Nat.eqb (List.length _local) 2 then
        "(" +:+ nth 0 _local "" +:+ "," +:+ nth 1 _local "" +:+ ")"
      else "" in
    Ok (name +:+ " numeric" +:+ prec_str)
  else Raise (NotImplementedError ("Column type " +:+ typ +:+ " not implemented")).

(** [[f(x) for x in xs]] where [f] may raise. *)
Fixpoint map_outcome {A B} (f : A -> outcome B) (xs : list A) : outcome (list B) :=
  match xs with
  | [] => Ok []
  | x :: xs' => y <- f x ;; ys <- map_outcome f xs' ;; Ok (y :: ys)
  end.

(** [d[key]] on a mapping whose lookup gave [v]. *)
Definition getitem {V} (key : string) (v : option V) : outcome V :=
  match v with
  | Some x => Ok x
  | None => Raise (KeyError key)
  end.

(** ** The remote service *)

(** What [query] returns: one row ([fetchone], [None] when the cursor is
    empty), a list of rows ([fetchall]) or [True]. *)
Inductive QueryResult : Type :=
| OneRow (row : option Row)
| AllRows (rows : list Row)
| Done.

(** What subscripting a [QueryResult] with [[0]] gives: a column of the one
    row, or the first row of the list. *)
Inductive Item : Type :=
| ItemValue (v : scalar)
| ItemRow (row : Row).

Definition truthy_item (i : Item) : bool :=
  match i with
  | ItemValue v => truthy v
  | ItemRow [] => false
  | ItemRow (_ :: _) => true
  end.

Definition subscript0 (r : QueryResult) : outcome Item :=
  match r with
  | OneRow (Some row) => v <- index row 0 ;; Ok (ItemValue v)
  | OneRow None => Raise (TypeError "'NoneType' object is not subscriptable")
  | AllRows rows => row <- index rows 0 ;; Ok (ItemRow row)
  | Done => Raise (TypeError "'bool' object is not subscriptable")
  end.

(** [v[0]] on a column value: the first character of a [str]. *)
Definition first_char (v : scalar) : outcome scalar :=
  match v with
  | PStr (String c _) => Ok (PStr (String c EmptyString))
  | PStr EmptyString => Raise IndexError
  | _ => Raise (TypeError "object is not subscriptable")
  end.

(** What [find_features] returns: the JSON objects of the rows, a
    geo-dataframe built from the rows, or the one-row placeholder frame. *)
Inductive Found : Type :=
| Features (objects : list scalar)
| GeoDataFrame (rows : list Row)
| MessageFrame (message : string).

(** The value written into the VALUES list for a property (lines 369-374). *)
Definition sql_value (v : scalar) : string :=
  match v with
  | PFloat _ | PInt _ | PBool _ => py_str v
  | PNone => "null"
  | PStr _ => "'" +:+ py_str v +:+ "'"
  end.

Module RemoteGeoPostgreSQLService.
Section Remote.
Context {C : Type} `{Connection C} `{JsonModule}.

Record Service : Type := {
  _conn : C;
  _collections : list scalar;
  _sql : option string
}.

(** A method body: it runs on [self], may change it, and returns or raises;
    what it did to [self] before raising stays done. *)
Definition M (A : Type) : Type := Service -> Service * outcome A.

Definition ret {A} (a : A) : M A := fun self => (self, Ok a).
Definition raise {A} (e : exn) : M A := fun self => (self, Raise e).
Definition lift {A} (r : outcome A) : M A := fun self => (self, r).
Definition bind {A B} (m : M A) (k : A -> M B) : M B := fun self =>
  match m self with
  | (self', Ok a) => k a self'
  | (self', Raise e) => (self', Raise e)
  end.

Notation "x <~ m ;; k" := (bind m (fun x => k))
  (at level 100, m at next level, right associativity).

Definition set_conn (self : Service) (conn : C) : Service :=
  {| _conn := conn; _collections := _collections self; _sql := _sql self |}.

Definition set_sql (sql : string) : M unit := fun self =>
  ({| _conn := _conn self; _collections := _collections self;
      _sql := Some sql |}, Ok tt).

(** [cursor.execute(sql)] on the connection of [self]. *)
Definition cursor_execute (sql : string) : M Cursor := fun self =>
  let (conn, r) := execute (_conn self) sql in (set_conn self conn, r).

Definition conn_commit : M unit := fun self =>
  (set_conn self (commit (_conn self)), Ok tt).

(** Lines 396-421; closing the cursor changes nothing that is observed. *)
Definition query (sql : string) : M QueryResult :=
  cur <~ cursor_execute sql ;;
  if contains "SELECT" sql then
    if rowcount cur =? 1 then
      result <~ lift (fetchone cur) ;; ret (OneRow result)
    else
      result <~ lift (fetchall cur) ;; ret (AllRows result)
  else
    _ <~ conn_commit ;;
    ret Done.

(** Lines 423-425: iterating the result of [query]. *)
Definition _get_collections : M (list scalar) :=
  result <~ query _GET_TABLES_SQL ;;
  match result with
  | AllRows rows => lift (map_outcome (fun r => index r 0) rows)
  | OneRow (Some row) => lift (map_outcome first_char row)
  | OneRow None => raise (TypeError "'NoneType' object is not iterable")
  | Done => raise (TypeError "'bool' object is not iterable")
  end.

(** Lines 427-429. *)
Definition _collection_exists (collection_name : string) : M Item :=
  result <~ query (_TABLE_EXISTS_SQL collection_name) ;;
  lift (subscript0 result).

(** Lines 237-243, for a connection handed in by the caller. *)
Definition init (conn : C) : C * outcome Service :=
  let self := {| _conn := conn; _collections := []; _sql := None |} in
  match _get_collections self with
  | (self', Ok names) =>
      (_conn self',
       Ok {| _conn := _conn self'; _collections := names; _sql := None |})
  | (self', Raise e) => (_conn self', Raise e)
  end.

(** The [collections] property. *)
Definition collections (self : Service) : list scalar := _collections self.

(** Lines 304-332. *)
Definition find_features (collection_name : string) (query : option string)
    (max_records : Z) (fmt : string) (bbox : option BBox)
    (bbox_mode : string) (bbox_crs : Z) : M Found :=
  found <~ _collection_exists collection_name ;;
  if negb (truthy_item found) then
    raise (ValueError ("Collection " +:+ collection_name +:+ " not found"))
  else
    let limit :=
      if max_records >? -1 then "LIMIT " +:+ str_int max_records else "" in
    query <~ lift (_alter_query query bbox bbox_mode fmt (Some bbox_crs)) ;;
    if String.eqb fmt "geojson" then
      _ <~ set_sql (_FILTER_SQL collection_name query limit) ;;
      cursor <~ cursor_execute (_FILTER_SQL collection_name query limit) ;;
      fetched <~ lift (fetchall cursor) ;;
      result_set <~ lift (map_outcome (fun f => index f 0) fetched) ;;
      ret (Features result_set)
    else if String.eqb fmt "geopandas" then
      (* [GeoDataFrame.from_postgis] runs the statement on the connection
         and builds the frame from the rows; [result.empty] is a frame
         without rows. *)
      _ <~ set_sql (_FILTER_LONG_SQL collection_name query limit) ;;
      cursor <~ cursor_execute (_FILTER_LONG_SQL collection_name query limit) ;;
      fetched <~ lift (fetchall cursor) ;;
      match fetched with
      | [] => ret (MessageFrame "empty result")
      | rows => ret (GeoDataFrame rows)
      end
    else raise (ValueError ("format " +:+ fmt +:+ " unknown")).

(** Lines 334-345. *)
Definition new_collection (collection_name : string) (schema : Schema)
  : M string :=
  found <~ _collection_exists collection_name ;;
  if truthy_item found then
    raise (ValueError ("Collection " +:+ collection_name +:+ " exists"))
  else
    properties <~ lift (getitem "properties" (s_properties schema)) ;;
    columns <~ lift (map_outcome (fun kv => _make_column kv.1 kv.2) properties) ;;
    _ <~ query (_CREATE_COLLECTION_SQL collection_name
                  (join ("," +:+ nl) columns)) ;;
    ret "Collection created".

(** Lines 347-352. *)
Definition drop_collection (collection_name : string) : M unit :=
  found <~ _collection_exists collection_name ;;
  if negb (truthy_item found) then
    raise (ValueError ("Collection " +:+ collection_name +:+ " does not exist"))
  else
    _ <~ query (_DROP_COLLECTION_SQL collection_name) ;;
    ret tt.

(** Lines 361-391: the INSERT statement of one feature. *)
Definition insert_sql (collection_name : string) (f : Feature) : outcome string :=
  properties <- getitem "properties" (f_properties f) ;;
  let columns := join "," (map (fun kv => dq +:+ lower kv.1 +:+ dq) properties) in
  let values := join "," (map (fun kv => sql_value kv.2) properties) in
  geometry <- getitem "geometry" (f_geometry f) ;;
  properties_json <-
    json_dumps (JObject (map (fun kv => (kv.1, JScalar kv.2)) properties)) ;;
  name <- getitem "S_NAME" (assoc "S_NAME" properties) ;;
  geometry_json <- json_dumps geometry ;;
  Ok (String.concat ""
        [ "INSERT INTO "; collection_name; "("; properties_json; ", name, ";
          columns; ", geometry) VALUES('"; properties_json; "', '";
          py_str name; "', "; values; ", ";
          "ST_GeomFromGeoJSON('"; geometry_json; ")')) " ]).

(** Lines 358-394. *)
Fixpoint add_features (collection_name : string) (features : list Feature)
  : M string :=
  match features with
  | [] => ret "Features Added"
  | f :: features' =>
      sql <~ lift (insert_sql collection_name f) ;;
      _ <~ query sql ;;
      add_features collection_name features'
  end.

(** Lines 354-356. *)
Definition add_feature (collection_name : string) (feature : Feature)
  : M string :=
  _ <~ add_features collection_name [feature] ;;
  ret "Feature Added".

(** Lines 258-261. *)
Definition _get_srid_from_collection (collection_name : string) : M Item :=
  result <~ query (_GET_SRID_SQL collection_name) ;;
  lift (subscript0 result).

(** Lines 253-256.  [bbox_crs] is not handed on, so [find_features] runs with
    its default of 4326.  [features[0] if features else None] tests the truth
    value of the result: a list is true when it has an element; for a data
    frame pandas raises [ValueError]. *)
Definition find_feature (collection_name : string) (query : option string)
    (fmt : string) (bbox : option BBox) (bbox_mode : string) (bbox_crs : Z)
  : M (option scalar) :=
  features <~ find_features collection_name query 1 fmt bbox bbox_mode 4326 ;;
  match features with
  | Features objects => ret (head objects)
  | GeoDataFrame _ | MessageFrame _ =>
      raise (ValueError "The truth value of a DataFrame is ambiguous")
  end.

End Remote.
Arguments Service C : clear implicits.
Arguments M C A : clear implicits.
End RemoteGeoPostgreSQLService.

(** ** The service factory: [get_geo_db_service] *)

(** The two services behind the one interface. *)
Inductive GeoDBService (C : Type) : Type :=
| LocalService
| RemoteService (service : RemoteGeoPostgreSQLService.Service C).
Arguments LocalService {C}.
Arguments RemoteService {C} service.

(** Lines 468-478, with the connection as the keyword argument [conn]. *)
Definition get_geo_db_service {C} `{Connection C} (driver : string) (conn : C)
  : C * outcome (GeoDBService C) :=
  if String.eqb driver "local" then (conn, Ok LocalService)
  else
    match RemoteGeoPostgreSQLService.init conn with
    | (conn', Ok service) => (conn', Ok (RemoteService service))
    | (conn', Raise e) => (conn', Raise e)
    end.

(** ** Stand-ins for the collaborators, for closed examples *)

(** An interpreter for a fragment of the expression language: the literals
    [True], [False] and [None], and a name.  A name is looked up among the
    variables of the feature first and then, as [eval] with [None] for the
    globals does, among the globals of the module and the builtins; a name
    found in neither raises [NameError].  Every other text is rejected as
    malformed.  An object that is no scalar (a function, a class, a module)
    stands as its truth value. *)
Module Tiny.

Inductive Expr : Type :=
| ETrue
| EFalse
| ENone
| EName (id : string).

Definition is_letter (c : ascii) : bool :=
  let n := nat_of_ascii c in
  (Nat.leb 65 n && Nat.leb n 90) || (Nat.leb 97 n && Nat.leb n 122)
  || Nat.eqb n 95.

Definition is_digit (c : ascii) : bool :=
  let n := nat_of_ascii c in Nat.leb 48 n && Nat.leb n 57.

Fixpoint all_chars (p : ascii -> bool) (s : string) : bool :=
  match s with
  | EmptyString => true
  | String c s' => p c && all_chars p s'
  end.

Definition is_identifier (s : string) : bool :=
  match s with
  | EmptyString => false
  | String c s' =>
      is_letter c && all_chars (fun c => is_letter c || is_digit c) s'
  end.

Definition parse (text : string) : outcome Expr :=
  if String.eqb text "True" then Ok ETrue
  else if String.eqb text "False" then Ok EFalse
  else if String.eqb text "None" then Ok ENone
  else if is_identifier text then Ok (EName text)
  else Raise (SyntaxError "invalid syntax").

(** The globals of [xcube_sh.geodb] after its import: what it imports and
    defines, and the attributes that every module has.  The module has no
    docstring. *)
Definition module_globals : list (string * scalar) :=
  [ ("__name__", PStr "xcube_sh.geodb"); ("__doc__", PNone);
    ("__package__", PStr "xcube_sh"); ("__loader__", PBool true);
    ("__spec__", PBool true); ("__file__", PBool true);
    ("__cached__", PBool true); ("__builtins__", PBool true);
    ("os", PBool true); ("abstractmethod", PBool true); ("ABCMeta", PBool true);
    ("Optional", PBool true); ("Sequence", PBool true); ("Dict", PBool true);
    ("Any", PBool true); ("Union", PBool true); ("fio", PBool true);
    ("psycopg2", PBool true); ("gpd", PBool true); ("json", PBool true);
    ("Feature", PBool true); ("Schema", PBool true); ("BBox", PBool true);
    ("GeoDBService", PBool true); ("LocalGeoDBService", PBool true);
    ("RemoteGeoPostgreSQLService", PBool true);
    ("get_geo_db_service", PBool true) ].

(** The names of the builtins (Python 3.7, with the names that [site] adds);
    all of them are bound to objects that are true. *)
Definition builtin_names : list string :=
  [ "ArithmeticError"; "AssertionError"; "AttributeError"; "BaseException";
    "BlockingIOError"; "BrokenPipeError"; "BufferError"; "BytesWarning";
    "ChildProcessError"; "ConnectionAbortedError"; "ConnectionError";
    "ConnectionRefusedError"; "ConnectionResetError"; "DeprecationWarning";
    "EOFError"; "Ellipsis"; "EnvironmentError"; "Exception";
    "FileExistsError"; "FileNotFoundError"; "FloatingPointError";
    "FutureWarning"; "GeneratorExit"; "IOError"; "ImportError";
    "ImportWarning"; "IndentationError"; "IndexError"; "InterruptedError";
    "IsADirectoryError"; "KeyError"; "KeyboardInterrupt"; "LookupError";
    "MemoryError"; "ModuleNotFoundError"; "NameError"; "NotADirectoryError";
    "NotImplemented"; "NotImplementedError"; "OSError"; "OverflowError";
    "PendingDeprecationWarning"; "PermissionError"; "ProcessLookupError";
    "RecursionError"; "ReferenceError"; "ResourceWarning"; "RuntimeError";
    "RuntimeWarning"; "StopAsyncIteration"; "StopIteration"; "SyntaxError";
    "SyntaxWarning"; "SystemError"; "SystemExit"; "TabError"; "TimeoutError";
    "TypeError"; "UnboundLocalError"; "UnicodeDecodeError";
    "UnicodeEncodeError"; "UnicodeError"; "UnicodeTranslateError";
    "UnicodeWarning"; "UserWarning"; "ValueError"; "Warning";
    "ZeroDivisionError"; "__build_class__"; "__debug__"; "__import__";
    "abs"; "all"; "any"; "ascii"; "bin"; "bool"; "breakpoint"; "bytearray";
    "bytes"; "callable"; "chr"; "classmethod"; "compile"; "complex";
    "copyright"; "credits"; "delattr"; "dict"; "dir"; "divmod"; "enumerate";
    "eval"; "exec"; "exit"; "filter"; "float"; "format"; "frozenset";
    "getattr"; "globals"; "hasattr"; "hash"; "help"; "hex"; "id"; "input";
    "int"; "isinstance"; "issubclass"; "iter"; "len"; "license"; "list";
    "locals"; "map"; "max"; "memoryview"; "min"; "next"; "object"; "oct";
    "open"; "ord"; "pow"; "print"; "property"; "quit"; "range"; "repr";
    "reversed"; "round"; "set"; "setattr"; "slice"; "sorted"; "staticmethod";
    "str"; "sum"; "super"; "tuple"; "type"; "vars"; "zip" ].

(** A name that the variables of the feature do not bind. *)
Definition global_lookup (id : string) : outcome scalar :=
  match assoc id module_globals with
  | Some v => Ok v
  | None =>
      if existsb (String.eqb id) builtin_names then Ok (PBool true)
      else Raise (NameError ("name '" +:+ id +:+ "' is not defined"))
  end.

Definition run (e : Expr) (variables : gmap string scalar) : outcome scalar :=
  match e with
  | ETrue => Ok (PBool true)
  | EFalse => Ok (PBool false)
  | ENone => Ok PNone
  | EName id =>
      match variables !! id with
      | Some v => Ok v
      | None => global_lookup id
      end
  end.

Definition evaluator : Evaluator :=
  {| code := Expr; compile_str := parse; eval := run |}.

End Tiny.

(** The interpreter of [Tiny] with one more expression, the call [exit()],
    whose evaluation raises [SystemExit]. *)
Module Quit.

Definition parse (text : string) : outcome (option Tiny.Expr) :=
  if String.eqb text "exit()" then Ok None
  else e <- Tiny.parse text ;; Ok (Some e).

Definition run (e : option Tiny.Expr) (variables : gmap string scalar)
  : outcome scalar :=
  match e with
  | Some e => Tiny.run e variables
  | None => Raise SystemExit
  end.

Definition evaluator : Evaluator :=
  {| code := option Tiny.Expr; compile_str := parse; eval := run |}.

End Quit.

(** A connection that answers from a prepared list of replies and records
    what it was asked to do. *)
Module Mock.

Inductive Call : Type :=
| Executed (sql : string)
| Committed.

Record Conn : Type := {
  replies : list (outcome Cursor);
  calls : list Call
}.

Definition no_result : Cursor := {| rowcount := -1; rows := None |}.

Definition mock_execute (m : Conn) (sql : string) : Conn * outcome Cursor :=
  match replies m with
  | r :: rs => ({| replies := rs; calls := calls m ++ [Executed sql] |}, r)
  | [] => ({| replies := []; calls := calls m ++ [Executed sql] |}, Ok no_result)
  end.

Definition mock_commit (m : Conn) : Conn :=
  {| replies := replies m; calls := calls m ++ [Committed] |}.

Definition connection : Connection Conn :=
  {| execute := mock_execute; commit := mock_commit |}.

(** The rows a SELECT answers with. *)
Definition select (rs : list Row) : outcome Cursor :=
  Ok {| rowcount := Z.of_nat (List.length rs); rows := Some rs |}.

(** A serializer without escaping: it writes what [json.dumps] writes for
    texts made of printable ASCII characters other than the quote and the
    backslash. *)
Fixpoint dumps (j : json) : string :=
  match j with
  | JScalar PNone => "null"
  | JScalar (PBool true) => "true"
  | JScalar (PBool false) => "false"
  | JScalar (PInt z) => str_int z
  | JScalar (PFloat r) => r
  | JScalar (PStr s) => dq +:+ s +:+ dq
  | JArray items => "[" +:+ join ", " (map dumps items) +:+ "]"
  | JObject members =>
      "{" +:+ join ", " (map (fun kv => match kv with
                                        | (k, v) => dq +:+ k +:+ dq +:+ ": " +:+ dumps v
                                        end) members) +:+ "}"
  end.

Definition json_module : JsonModule := {| json_dumps := fun j => Ok (dumps j) |}.

End Mock.

(** ** Example data *)

Definition point (x y : Z) : json :=
  JObject [("type", JScalar (PStr "Point"));
           ("coordinates", JArray [JScalar (PInt x); JScalar (PInt y)])].

Definition park (i : Z) (name : string) : Feature :=
  {| f_id := Some (PInt i);
     f_properties := Some [("S_NAME", PStr name); ("open", PBool true)];
     f_geometry := Some (point i i) |}.

(** A feature whose properties lack the key [S_NAME] and the key [open]. *)
Definition nameless (i : Z) : Feature :=
  {| f_id := Some (PInt i);
     f_properties := Some [("area", PInt 7)];
     f_geometry := Some (point i i) |}.

Definition parks : gmap string (list Feature) :=
  {[ "parks" := [park 1 "north"; park 2 "south"; park 3 "west"] ]}.

(** Four features; the second one has no property [S_NAME]. *)
Definition mixed : gmap string (list Feature) :=
  {[ "mixed" := [park 1 "north"; nameless 2; park 3 "west"; park 4 "east"] ]}.


Definition dated_schema : Schema :=
  {| s_properties := Some [("height", "float:8.2"); ("built", "date");
                           ("name", "str")] |}.

(** A mock connection that has answered all it was prepared for. *)
Definition asked (calls : list Mock.Call) : Mock.Conn :=
  {| Mock.replies := []; Mock.calls := calls |}.

(** ** Auxiliary definitions of the statements *)

(** What [query] makes of the cursor of a statement with SELECT in its text
    (lines 412-415). *)
Definition fetched (cur : Cursor) : outcome QueryResult :=
  if rowcount cur =? 1 then row <- fetchone cur ;; Ok (OneRow row)
  else answer <- fetchall cur ;; Ok (AllRows answer).

(** The connection executes a statement and answers with these rows. *)
Definition replies_with {C} `{Connection C} (c : C) (sql : string) (c' : C)
    (answer : list Row) : Prop :=
  execute c sql = (c', Ok {| rowcount := Z.of_nat (List.length answer);
                             rows := Some answer |}).

(** The features of a collection whose evaluation returns a value. *)
Definition evaluates `{Evaluator} (compiled : code) (f : Feature) : bool :=
  is_Ok (eval compiled (LocalGeoDBService._locals f)).

(** The features that the filter selects: the evaluation returns a true
    value. *)
Definition selected `{Evaluator} (compiled : code) (f : Feature) : bool :=
  match eval compiled (LocalGeoDBService._locals f) with
  | Ok v => truthy v
  | Raise _ => false
  end.

(** The evaluation of the filter raises nothing but [Exception]s on the
    features of a collection. *)
Definition recoverable `{Evaluator} (compiled : code) (collection : list Feature)
  : Prop :=
  forall f e, f ∈ collection ->
    eval compiled (LocalGeoDBService._locals f) = Raise e -> is_Exception e = true.

(** A method body under which a property of the connection that every
    [execute] keeps is kept. *)
Definition only_executes {C A} `{Connection C}
    (m : RemoteGeoPostgreSQLService.M C A) : Prop :=
  forall P : C -> Prop,
    (forall c sql, P c -> P (execute c sql).1) ->
    forall self,
      P (RemoteGeoPostgreSQLService._conn self) ->
      P (RemoteGeoPostgreSQLService._conn (m self).1).

(** The calls of a mock connection hold no commit. *)
Definition uncommitted (m : Mock.Conn) : Prop := Mock.Committed ∉ Mock.calls m.

(** What a mock connection records for statements that are executed and
    committed one by one. *)
Definition committed_one_by_one (statements : list string) : list Mock.Call :=
  flat_map (fun sql => [Mock.Executed sql; Mock.Committed]) statements.

(** The number of occurrences of a character. *)
Fixpoint count_char (c : ascii) (s : string) : nat :=
  match s with
  | EmptyString => 0
  | String x s' => (if Ascii.eqb x c then 1 else 0) + count_char c s'
  end.

(** A method body that leaves the cached list of collection names alone. *)
Definition keeps_collections {C A} (m : RemoteGeoPostgreSQLService.M C A) : Prop :=
  forall self,
    RemoteGeoPostgreSQLService._collections (m self).1
    = RemoteGeoPostgreSQLService._collections self.

(** The same service object with another cached list. *)
Definition with_collections {C} (self : RemoteGeoPostgreSQLService.Service C)
    (names : list scalar) : RemoteGeoPostgreSQLService.Service C :=
  {| RemoteGeoPostgreSQLService._conn := RemoteGeoPostgreSQLService._conn self;
     RemoteGeoPostgreSQLService._collections := names;
     RemoteGeoPostgreSQLService._sql := RemoteGeoPostgreSQLService._sql self |}.

(** A service object on a mock connection that has been asked nothing yet. *)
Definition fresh (replies : list (outcome Cursor)) (names : list scalar)
  : RemoteGeoPostgreSQLService.Service Mock.Conn :=
  {| RemoteGeoPostgreSQLService._conn := {| Mock.replies := replies; Mock.calls := [] |};
     RemoteGeoPostgreSQLService._collections := names;
     RemoteGeoPostgreSQLService._sql := None |}.

(** * Properties *)

(** ** The query translator *)

Lemma truthy_str_Some (q : string) : q ≠ "" -> truthy_str (Some q) = true.
Proof.
  intros Hq. simpl. destruct (String.eqb_spec q ""); [contradiction | reflexivity].
Qed.

Lemma bbox_query_of_nonempty corners bbox_mode srid b :
  bbox_query_of corners bbox_mode srid = Ok b -> truthy_str (Some b) = true.
Proof.
  unfold bbox_query_of, rbind.
  destruct (index corners 0); [| discriminate].
  destruct (index corners 1); [| discriminate].
  destruct (index corners 2); [| discriminate].
  destruct (index corners 3); [| discriminate].
  destruct (String.eqb bbox_mode "contains").
  - intros [= <-]. reflexivity.
  - destruct (String.eqb bbox_mode "within"); [| discriminate].
    intros [= <-]. reflexivity.
Qed.

(** The first step of [_alter_query], for a bounding box that is present. *)
Lemma alter_query_with_bbox query c corners bbox_mode fmt srid b :
  bbox_query_of (c :: corners) bbox_mode srid = Ok b ->
  _alter_query query (Some (c :: corners)) bbox_mode fmt srid =
  if truthy_str query then
    if String.eqb fmt "geojson" then
      Ok ("properties->>" +:+ default "" query +:+ " and " +:+ b)
    else if String.eqb fmt "geopandas" then
      Ok (default "" query +:+ " and " +:+ b)
    else Raise (ValueError ("format " +:+ fmt +:+ " not known"))
  else Ok b.
Proof.
  intros Hb. unfold _alter_query. rewrite Hb. cbn [rbind].
  rewrite (bbox_query_of_nonempty _ _ _ _ Hb).
  destruct (truthy_str query); reflexivity.
Qed.

(** The first step of [_alter_query], for a bounding box that is absent. *)
Lemma alter_query_without_bbox query bbox bbox_mode fmt srid :
  truthy_seq bbox = false ->
  _alter_query query bbox bbox_mode fmt srid =
  if truthy_str query then
    if String.eqb fmt "geojson" then Ok ("properties->>" +:+ default "" query)
    else if String.eqb fmt "geopandas" then Ok (default "" query)
    else Raise (ValueError ("format " +:+ fmt +:+ " not known"))
  else Ok "TRUE".
Proof.
  intros Hb. unfold _alter_query.
  destruct bbox as [[| c corners] |]; try discriminate;
    cbn [rbind truthy_str]; destruct (truthy_str query); reflexivity.
Qed.

Lemma eqb_ne (a b : string) : a ≠ b -> String.eqb a b = false.
Proof. intros Hab. destruct (String.eqb_spec a b); [contradiction | reflexivity]. Qed.

(** C1 (as amended).  The translator follows the table: neither a query nor
    a bounding box gives the literal TRUE, whatever the format; a query
    alone gives [properties->>query] for geojson and the query itself for
    geopandas; a bounding box alone gives its predicate, whatever the
    format; both give the rewritten query, [ and ], and the predicate; and an
    output format other than geojson and geopandas raises a [ValueError]
    exactly when a query is present. *)
Theorem alter_query_table :
  (forall query bbox bbox_mode fmt srid,
      truthy_str query = false -> truthy_seq bbox = false ->
      _alter_query query bbox bbox_mode fmt srid = Ok "TRUE")
  /\ (forall q bbox bbox_mode srid,
      q ≠ "" -> truthy_seq bbox = false ->
      _alter_query (Some q) bbox bbox_mode "geojson" srid
        = Ok ("properties->>" +:+ q)
      /\ _alter_query (Some q) bbox bbox_mode "geopandas" srid = Ok q)
  /\ (forall query c corners bbox_mode fmt srid b,
      truthy_str query = false ->
      bbox_query_of (c :: corners) bbox_mode srid = Ok b ->
      _alter_query query (Some (c :: corners)) bbox_mode fmt srid = Ok b)
  /\ (forall q c corners bbox_mode srid b,
      q ≠ "" ->
      bbox_query_of (c :: corners) bbox_mode srid = Ok b ->
      _alter_query (Some q) (Some (c :: corners)) bbox_mode "geojson" srid
        = Ok ("properties->>" +:+ q +:+ " and " +:+ b)
      /\ _alter_query (Some q) (Some (c :: corners)) bbox_mode "geopandas" srid
        = Ok (q +:+ " and " +:+ b))
  /\ (forall q bbox bbox_mode fmt srid,
      q ≠ "" -> fmt ≠ "geojson" -> fmt ≠ "geopandas" ->
      (truthy_seq bbox = false \/
       exists c corners b, bbox = Some (c :: corners) /\
                           bbox_query_of (c :: corners) bbox_mode srid = Ok b) ->
      _alter_query (Some q) bbox bbox_mode fmt srid
        = Raise (ValueError ("format " +:+ fmt +:+ " not known"))).
Proof.
  split; [| split; [| split; [| split]]].
  - intros query bbox bbox_mode fmt srid Hq Hb.
    rewrite alter_query_without_bbox by assumption. now rewrite Hq.
  - intros q bbox bbox_mode srid Hq Hb. split.
    + rewrite alter_query_without_bbox by assumption.
      now rewrite truthy_str_Some.
    + rewrite alter_query_without_bbox by assumption.
      now rewrite truthy_str_Some.
  - intros query c corners bbox_mode fmt srid b Hq Hb.
    rewrite (alter_query_with_bbox _ _ _ _ _ _ _ Hb). now rewrite Hq.
  - intros q c corners bbox_mode srid b Hq Hb. split.
    + rewrite (alter_query_with_bbox _ _ _ _ _ _ _ Hb).
      now rewrite truthy_str_Some.
    + rewrite (alter_query_with_bbox _ _ _ _ _ _ _ Hb).
      now rewrite truthy_str_Some.
  - intros q bbox bbox_mode fmt srid Hq Hj Hp [Hb | (c & corners & b & -> & Hb)].
    + rewrite alter_query_without_bbox by assumption.
      now rewrite truthy_str_Some, !eqb_ne.
    + rewrite (alter_query_with_bbox _ _ _ _ _ _ _ Hb).
      now rewrite truthy_str_Some, !eqb_ne.
Qed.

(** C1, at a concrete input: a query and a bounding box, geopandas. *)
Lemma alter_query_table_witness :
  _alter_query (Some "height > 3") (Some [PInt 1; PInt 2; PInt 3; PInt 4])
               "within" "geopandas" (Some 4326)
  = Ok ("height > 3 and  ST_Within(' SRID=4326;POLYGON((1 2,1 4,3 4,3 2,1 2))"
        +:+ "::geometry', geometry)").
Proof.
  apply (proj2 (proj1 (proj2 (proj2 (proj2 alter_query_table)))
                 "height > 3" (PInt 1) [PInt 2; PInt 3; PInt 4] "within"
                 (Some 4326) _ ltac:(discriminate) eq_refl)).
Defined.

(** C1 as stated fails: with no query, a format that is neither geojson nor
    geopandas raises nothing, with or without a bounding box. *)
Lemma alter_query_unknown_format_accepted :
  "xml" ≠ "geojson" /\ "xml" ≠ "geopandas"
  /\ _alter_query None None "contains" "xml" (Some 4326) = Ok "TRUE"
  /\ _alter_query None (Some [PInt 1; PInt 2; PInt 3; PInt 4]) "contains" "xml" None
     = Ok " ST_Contains(' POLYGON((1 2,1 4,3 4,3 2,1 2))::geometry', geometry)".
Proof. repeat split; discriminate. Qed.

Lemma append_assoc (a b c : string) : (a +:+ b) +:+ c = a +:+ b +:+ c.
Proof.
  induction a as [| x a IH]; [reflexivity |].
  change (String x ((a +:+ b) +:+ c) = String x (a +:+ b +:+ c)). now f_equal.
Qed.

Lemma append_nil_r (a : string) : a +:+ "" = a.
Proof.
  induction a as [| x a IH]; [reflexivity |].
  change (String x (a +:+ "") = String x a). now f_equal.
Qed.

(** A bounding box with an unknown mode stops the translator, whatever the
    query and the format are. *)
Lemma alter_query_bbox_error query c corners bbox_mode fmt srid e :
  bbox_query_of (c :: corners) bbox_mode srid = Raise e ->
  _alter_query query (Some (c :: corners)) bbox_mode fmt srid = Raise e.
Proof. intros Hb. unfold _alter_query. now rewrite Hb. Qed.

(** C2.  For a bounding box (minx, miny, maxx, maxy) the region is the WKT
    polygon over the closed ring (minx miny), (minx maxy), (maxx maxy),
    (maxx miny), (minx miny), with the SRID tag in front when an SRID is
    given; mode [contains] wraps it in ST_Contains(region, geometry), mode
    [within] in ST_Within(region, geometry), so the two predicates differ in
    the name of the function only; every other mode raises a [ValueError],
    in the translator as a whole as well. *)
Theorem bbox_predicate_by_mode (minx miny maxx maxy : scalar)
    (more : list scalar) (srid : option Z) :
  let bbox := minx :: miny :: maxx :: maxy :: more in
  let ring := [(minx, miny); (minx, maxy); (maxx, maxy); (maxx, miny); (minx, miny)] in
  let vertex := fun p : scalar * scalar => py_str p.1 +:+ " " +:+ py_str p.2 in
  let tag := match srid with
             | Some n => "SRID=" +:+ str_int n +:+ ";"
             | None => ""
             end in
  let wkt := " " +:+ tag +:+ "POLYGON((" +:+ join "," (map vertex ring)
                 +:+ "))::geometry" in
  let predicate := fun name : string =>
    " ST_" +:+ name +:+ "('" +:+ wkt +:+ "', geometry)" in
  bbox_query_of bbox "contains" srid = Ok (predicate "Contains")
  /\ bbox_query_of bbox "within" srid = Ok (predicate "Within")
  /\ (forall query fmt, truthy_str query = false ->
        _alter_query query (Some bbox) "contains" fmt srid = Ok (predicate "Contains")
        /\ _alter_query query (Some bbox) "within" fmt srid = Ok (predicate "Within"))
  /\ (forall bbox_mode, bbox_mode ≠ "contains" -> bbox_mode ≠ "within" ->
        bbox_query_of bbox bbox_mode srid
          = Raise (ValueError ("bbox_mode " +:+ bbox_mode +:+ " unknown"))
        /\ forall query fmt,
            _alter_query query (Some bbox) bbox_mode fmt srid
              = Raise (ValueError ("bbox_mode " +:+ bbox_mode +:+ " unknown"))).
Proof.
  intros bbox ring vertex tag wkt predicate.
  assert (Hregion : region minx miny maxx maxy srid = wkt).
  { unfold region, polygon, wkt, tag, ring, vertex, srid_tag. cbn [map join fst snd].
    now rewrite !append_assoc. }
  assert (Hc : bbox_query_of bbox "contains" srid = Ok (predicate "Contains")).
  { unfold bbox_query_of, bbox, predicate. cbn [index lookup list_lookup rbind].
    now rewrite Hregion. }
  assert (Hw : bbox_query_of bbox "within" srid = Ok (predicate "Within")).
  { unfold bbox_query_of, bbox, predicate. cbn [index lookup list_lookup rbind].
    now rewrite Hregion. }
  split; [exact Hc |]. split; [exact Hw |]. split.
  - intros query fmt Hq. unfold bbox in *. split.
    + rewrite (alter_query_with_bbox _ _ _ _ _ _ _ Hc). now rewrite Hq.
    + rewrite (alter_query_with_bbox _ _ _ _ _ _ _ Hw). now rewrite Hq.
  - intros bbox_mode Hnc Hnw.
    assert (He : bbox_query_of bbox bbox_mode srid
                 = Raise (ValueError ("bbox_mode " +:+ bbox_mode +:+ " unknown"))).
    { unfold bbox_query_of, bbox. cbn [index lookup list_lookup rbind].
      now rewrite !eqb_ne. }
    split; [exact He |]. intros query fmt. unfold bbox in *.
    now apply alter_query_bbox_error.
Qed.

(** C2, at a concrete input: a box with an unknown mode. *)
Lemma bbox_predicate_by_mode_witness :
  _alter_query (Some "height > 3") (Some [PInt 1; PInt 2; PInt 3; PInt 4])
               "overlaps" "geojson" (Some 4326)
  = Raise (ValueError "bbox_mode overlaps unknown").
Proof.
  apply (proj2 (proj2 (proj2 (proj2
           (bbox_predicate_by_mode (PInt 1) (PInt 2) (PInt 3) (PInt 4) [] (Some 4326))))
           "overlaps" ltac:(discriminate) ltac:(discriminate))).
Defined.

(** ** The local service *)

Section LocalProperties.
Context `{Evaluator}.
Import LocalGeoDBService.

Implicit Types (f : Feature) (collection result_set : list Feature).

(** A feature whose evaluation raises an [Exception] is passed over. *)
Lemma find_loop_skip compiled max_records f collection result_set e :
  eval compiled (_locals f) = Raise e -> is_Exception e = true ->
  find_loop compiled max_records (f :: collection) result_set
  = find_loop compiled max_records collection result_set.
Proof.
  intros He Hc. cbn [find_loop]. unfold eval_feature. rewrite He, Hc.
  reflexivity.
Qed.

(** A feature whose value is false is passed over. *)
Lemma find_loop_false compiled max_records f collection result_set v :
  eval compiled (_locals f) = Ok v -> truthy v = false ->
  find_loop compiled max_records (f :: collection) result_set
  = find_loop compiled max_records collection result_set.
Proof.
  intros He Hv. cbn [find_loop]. unfold eval_feature. rewrite He.
  cbn [rbind]. now rewrite Hv.
Qed.

(** A match is appended, and the loop stops when the length of the result
    has reached [max_records]. *)
Lemma find_loop_match compiled max_records f collection result_set v :
  eval compiled (_locals f) = Ok v -> truthy v = true ->
  find_loop compiled max_records (f :: collection) result_set
  = if Z.of_nat (List.length (result_set ++ [f])) >=? max_records
    then Ok (result_set ++ [f])
    else find_loop compiled max_records collection (result_set ++ [f]).
Proof.
  intros He Hv. cbn [find_loop]. unfold eval_feature. rewrite He.
  cbn [rbind]. now rewrite Hv.
Qed.

(** With [max_records] at most 1, so for 0 and for every negative value,
    the loop returns at its first match. *)
Lemma find_loop_first_match compiled max_records f collection v :
  max_records <= 1 ->
  eval compiled (_locals f) = Ok v -> truthy v = true ->
  find_loop compiled max_records (f :: collection) [] = Ok [f].
Proof.
  intros Hm He Hv. rewrite (find_loop_match _ _ _ _ _ _ He Hv).
  cbn [app List.length]. destruct (Z.geb_spec (Z.of_nat 1) max_records); [reflexivity | lia].
Qed.

Lemma find_loop_filter compiled max_records collection :
  (forall f e, f ∈ collection -> eval compiled (_locals f) = Raise e ->
               is_Exception e = true) ->
  forall result_set,
    find_loop compiled max_records collection result_set
    = find_loop compiled max_records
        (List.filter (evaluates compiled) collection) result_set.
Proof.
  induction collection as [| f collection IH]; intros Hexc result_set.
  - reflexivity.
  - assert (Hrest : forall g e, g ∈ collection ->
              eval compiled (_locals g) = Raise e -> is_Exception e = true).
    { intros g e Hg. apply Hexc. now right. }
    cbn [List.filter]. unfold evaluates at 1.
    destruct (eval compiled (_locals f)) as [v | e] eqn:He; cbn [is_Ok].
    + destruct (truthy v) eqn:Hv.
      * rewrite !(find_loop_match _ _ _ _ _ _ He Hv).
        destruct (_ >=? _); [reflexivity | now apply IH].
      * rewrite !(find_loop_false _ _ _ _ _ _ He Hv). now apply IH.
    + rewrite (find_loop_skip _ _ _ _ _ _ He); [now apply IH |].
      apply (Hexc f e); [left | exact He].
Qed.

Lemma find_loop_returns compiled max_records collection :
  (forall f e, f ∈ collection -> eval compiled (_locals f) = Raise e ->
               is_Exception e = true) ->
  forall result_set,
    exists found,
      find_loop compiled max_records collection result_set = Ok found
      /\ forall f, f ∈ found ->
           f ∈ result_set
           \/ exists v, eval compiled (_locals f) = Ok v /\ truthy v = true.
Proof.
  induction collection as [| f collection IH]; intros Hexc result_set.
  - exists result_set. split; [reflexivity | now left].
  - assert (Hrest : forall g e, g ∈ collection ->
              eval compiled (_locals g) = Raise e -> is_Exception e = true).
    { intros g e Hg. apply Hexc. now right. }
    destruct (eval compiled (_locals f)) as [v | e] eqn:He.
    + destruct (truthy v) eqn:Hv.
      * rewrite (find_loop_match _ _ _ _ _ _ He Hv).
        assert (Hin : forall g, g ∈ result_set ++ [f] ->
                  g ∈ result_set
                  \/ exists w, eval compiled (_locals g) = Ok w /\ truthy w = true).
        { intros g [Hg | Hg%list_elem_of_singleton]%elem_of_app; [now left |].
          subst g. right. now exists v. }
        destruct (_ >=? _).
        -- exists (result_set ++ [f]). split; [reflexivity | exact Hin].
        -- destruct (IH Hrest (result_set ++ [f])) as (found & Hf & Hall).
           exists found. split; [exact Hf |].
           intros g Hg. destruct (Hall g Hg) as [Hacc | Hev]; [| now right].
           now apply Hin.
      * rewrite (find_loop_false _ _ _ _ _ _ He Hv). now apply IH.
    + rewrite (find_loop_skip _ _ _ _ _ _ He); [now apply IH |].
      apply (Hexc f e); [left | exact He].
Qed.

(** For [max_records] of 1 or more the result has at most [max_records]
    features. *)
Lemma find_loop_bounded compiled max_records collection :
  forall result_set found,
    Z.of_nat (List.length result_set) < max_records ->
    find_loop compiled max_records collection result_set = Ok found ->
    Z.of_nat (List.length found) <= max_records.
Proof.
  induction collection as [| f collection IH]; intros result_set found Hlen.
  - intros [= <-]. lia.
  - cbn [find_loop]. destruct (eval_feature compiled f) as [v | e]; [| discriminate].
    cbn [rbind]. destruct (truthy v); [| now apply IH].
    destruct (Z.geb_spec (Z.of_nat (List.length (result_set ++ [f]))) max_records)
      as [Hge | Hlt].
    + intros [= <-]. rewrite length_app in *. cbn [List.length] in *. lia.
    + now apply IH.
Qed.

(** The result lists features of the collection, in the order of the
    collection. *)
Lemma find_loop_order compiled max_records collection :
  forall result_set found,
    find_loop compiled max_records collection result_set = Ok found ->
    exists matches, found = result_set ++ matches /\ sublist matches collection.
Proof.
  induction collection as [| f collection IH]; intros result_set found.
  - intros [= <-]. exists []. split; [now rewrite app_nil_r | constructor].
  - cbn [find_loop]. destruct (eval_feature compiled f) as [v | e]; [| discriminate].
    cbn [rbind]. destruct (truthy v).
    + destruct (_ >=? _).
      * intros [= <-]. exists [f]. split; [reflexivity |].
        apply sublist_skip, sublist_nil_l.
      * intros (matches & -> & Hsub)%IH. exists (f :: matches).
        split; [now rewrite <- app_assoc | now apply sublist_skip].
    + intros (matches & -> & Hsub)%IH. exists matches.
      split; [reflexivity | now apply sublist_cons].
Qed.

(** C4 (as amended).  Once the filter has compiled, an [Exception] raised
    while it is evaluated for a feature counts as a predicate that is false
    for that feature only: the call returns, every feature it returns
    evaluated to a true value, and the result is the one the call gives on
    the collection without the features whose evaluation raises. *)
Theorem local_eval_failure_is_no_match (geodb : gmap string (list Feature))
    (collection_name : string) (query : option string) (max_records : Z)
    (fmt : string) (bbox : option BBox) (bbox_mode : string) (bbox_crs : Z)
    (compiled : code) (collection : list Feature) :
  truthy_seq bbox = false ->
  compile query = Ok compiled ->
  geodb !! collection_name = Some collection ->
  (forall f e, f ∈ collection -> eval compiled (_locals f) = Raise e ->
               is_Exception e = true) ->
  exists found,
    find_features geodb collection_name query max_records fmt bbox bbox_mode bbox_crs
      = Ok found
    /\ (forall f, f ∈ found ->
          exists v, eval compiled (_locals f) = Ok v /\ truthy v = true)
    /\ find_features
         (<[collection_name := List.filter (evaluates compiled) collection]> geodb)
         collection_name query max_records fmt bbox bbox_mode bbox_crs
       = Ok found.
Proof.
  intros Hbbox Hcompile Hfile Hexc.
  destruct (find_loop_returns compiled max_records collection Hexc [])
    as (found & Hfound & Hall).
  exists found. unfold find_features, _get_collection.
  rewrite Hbbox, Hcompile, Hfile, lookup_insert_eq. cbn [rbind].
  split; [exact Hfound |]. split.
  - intros f Hf. destruct (Hall f Hf) as [Hnil | Hev]; [| exact Hev].
    now apply elem_of_nil in Hnil.
  - now rewrite <- find_loop_filter.
Qed.

(** C9.  Without a textual query the local [find_features] never returns
    features: it raises; when no bounding box is given the error is the
    [TypeError] of [compile], raised before the collection is looked up.
    The literal TRUE for a missing query belongs to the translator of the
    remote service. *)
Theorem local_find_features_without_query (geodb : gmap string (list Feature))
    (collection_name : string) (max_records : Z) (fmt : string)
    (bbox : option BBox) (bbox_mode : string) (bbox_crs : Z) :
  (exists e,
      find_features geodb collection_name None max_records fmt bbox bbox_mode bbox_crs
      = Raise e)
  /\ (truthy_seq bbox = false ->
      find_features geodb collection_name None max_records fmt bbox bbox_mode bbox_crs
      = Raise (TypeError "compile() arg 1 must be a string, bytes or AST object"))
  /\ (forall srid, _alter_query None None bbox_mode fmt srid = Ok "TRUE").
Proof.
  unfold find_features. split; [| split].
  - destruct (truthy_seq bbox); eexists; reflexivity.
  - intros ->. reflexivity.
  - reflexivity.
Qed.

End LocalProperties.

(** C3, on the local service: with the default [max_records] of -1 the call
    returns the first of three matching features only, and with
    [max_records] 0 it returns one feature, more than 0. *)
Theorem local_find_features_stops_at_first_match :
  let find_features := fun max_records =>
    @LocalGeoDBService.find_features Tiny.evaluator parks "parks" (Some "True")
      max_records "geopandas" None "contains" 4326 in
  find_features (-1) = Ok [park 1 "north"]
  /\ find_features 0 = Ok [park 1 "north"]
  /\ find_features 5 = Ok [park 1 "north"; park 2 "south"; park 3 "west"].
Proof. repeat split. Qed.

(** C4, at a concrete input: the variable [area] is missing in the first and
    in the last feature. *)
Lemma local_eval_failure_is_no_match_witness :
  exists found,
    @LocalGeoDBService.find_features Tiny.evaluator
      {[ "mixed" := [park 1 "north"; nameless 2; park 3 "west"; nameless 4] ]}
      "mixed" (Some "area") 5 "geopandas" None "contains" 4326 = Ok found
    /\ (forall f, f ∈ found ->
          exists v, Tiny.run (Tiny.EName "area") (LocalGeoDBService._locals f) = Ok v
                    /\ truthy v = true)
    /\ @LocalGeoDBService.find_features Tiny.evaluator
         (<[ "mixed" := List.filter (@evaluates Tiny.evaluator (Tiny.EName "area"))
                          [park 1 "north"; nameless 2; park 3 "west"; nameless 4] ]>
            {[ "mixed" := [park 1 "north"; nameless 2; park 3 "west"; nameless 4] ]})
         "mixed" (Some "area") 5 "geopandas" None "contains" 4326 = Ok found.
Proof.
  apply (@local_eval_failure_is_no_match Tiny.evaluator
           {[ "mixed" := [park 1 "north"; nameless 2; park 3 "west"; nameless 4] ]}
           "mixed" (Some "area") 5 "geopandas" None "contains" 4326
           (Tiny.EName "area")
           [park 1 "north"; nameless 2; park 3 "west"; nameless 4]).
  - reflexivity.
  - reflexivity.
  - reflexivity.
  - intros f e _. cbn [eval Tiny.evaluator]. unfold Tiny.run.
    destruct (_ !! _); [discriminate |]. now intros [= <-].
Defined.

(** C4 as stated fails for a malformed expression: it does not compile, and
    the call raises instead of passing over the features. *)
Lemma local_malformed_query_aborts :
  @LocalGeoDBService.find_features Tiny.evaluator parks "parks" (Some "id ==")
    (-1) "geopandas" None "contains" 4326
  = Raise (SyntaxError "invalid syntax").
Proof. reflexivity. Qed.

(** C9, at a concrete input. *)
Lemma local_find_features_without_query_witness :
  @LocalGeoDBService.find_features Tiny.evaluator parks "parks" None
    (-1) "geopandas" None "contains" 4326
  = Raise (TypeError "compile() arg 1 must be a string, bytes or AST object").
Proof.
  apply (proj1 (proj2 (@local_find_features_without_query Tiny.evaluator parks
                         "parks" (-1) "geopandas" None "contains" 4326))).
  reflexivity.
Defined.

(** ** The remote service *)

Section RemoteProperties.
Context {C : Type} `{Connection C} `{JsonModule}.
Import RemoteGeoPostgreSQLService.

Implicit Types (self : Service C) (sql : string).

(** [query] in terms of the driver. *)
Lemma query_unfold sql self :
  query sql self =
  match execute (_conn self) sql with
  | (conn, Ok cur) =>
      if contains "SELECT" sql then (set_conn self conn, fetched cur)
      else (set_conn self (commit conn), Ok Done)
  | (conn, Raise e) => (set_conn self conn, Raise e)
  end.
Proof.
  unfold query, bind, cursor_execute, fetched.
  destruct (execute (_conn self) sql) as [conn [cur | e]]; [| reflexivity].
  destruct (contains "SELECT" sql); [| reflexivity].
  unfold lift, fetchone, fetchall.
  destruct (rowcount cur =? 1), (rows cur); reflexivity.
Qed.



(** A statement that fails leaves no commit behind and raises. *)
Lemma query_error self sql conn e :
  execute (_conn self) sql = (conn, Raise e) ->
  query sql self = (set_conn self conn, Raise e).
Proof. intros Hexec. now rewrite query_unfold, Hexec. Qed.

(** C6.  A feature whose properties have no key [S_NAME] makes
    [add_feature] raise with the service, and so its connection, as they
    were: no statement has been sent.  When the feature has a geometry and
    its properties serialize, the error is the [KeyError] of that key. *)
Theorem add_feature_without_name self collection_name feature properties :
  f_properties feature = Some properties ->
  assoc "S_NAME" properties = None ->
  (exists e, add_feature collection_name feature self = (self, Raise e))
  /\ (forall geometry text,
        f_geometry feature = Some geometry ->
        json_dumps (JObject (map (fun kv => (kv.1, JScalar kv.2)) properties))
          = Ok text ->
        add_feature collection_name feature self
          = (self, Raise (KeyError "S_NAME"))).
Proof.
  intros Hprops Hname.
  assert (Hsql : forall e, insert_sql collection_name feature = Raise e ->
             add_feature collection_name feature self = (self, Raise e)).
  { intros e He. unfold add_feature, bind. cbn [add_features]. unfold bind, lift.
    now rewrite He. }
  split.
  - assert (Hraise : exists e, insert_sql collection_name feature = Raise e).
    { unfold insert_sql. rewrite Hprops. cbn [getitem rbind].
      destruct (f_geometry feature) as [geometry |]; cbn [getitem rbind];
        [| eexists; reflexivity].
      destruct (json_dumps _) as [text | e]; cbn [rbind];
        [rewrite Hname |]; eexists; reflexivity. }
    destruct Hraise as [e He]. exists e. now apply Hsql.
  - intros geometry text Hgeo Hjson. apply Hsql. unfold insert_sql.
    rewrite Hprops. cbn [getitem rbind]. rewrite Hgeo. cbn [getitem rbind].
    rewrite Hjson. cbn [rbind]. now rewrite Hname.
Qed.

(** One turn of the loop of [add_features]. *)
Lemma add_features_cons collection_name f rest self :
  add_features collection_name (f :: rest) self =
  match insert_sql collection_name f with
  | Ok sql =>
      match query sql self with
      | (self', Ok _) => add_features collection_name rest self'
      | (self', Raise e) => (self', Raise e)
      end
  | Raise e => (self, Raise e)
  end.
Proof.
  cbn [add_features]. unfold bind, lift.
  destruct (insert_sql collection_name f) as [sql | e]; [| reflexivity].
  destruct (query sql self) as [self' [r | e]]; reflexivity.
Qed.



(** *** The cached list of collection names *)

Lemma keeps_ret {A} (a : A) : keeps_collections (C := C) (ret a).
Proof. intros self. reflexivity. Qed.

Lemma keeps_raise {A} (e : exn) : keeps_collections (C := C) (A := A) (raise e).
Proof. intros self. reflexivity. Qed.

Lemma keeps_lift {A} (r : outcome A) : keeps_collections (C := C) (lift r).
Proof. intros self. reflexivity. Qed.

Lemma keeps_bind {A B} (m : M C A) (k : A -> M C B) :
  keeps_collections m -> (forall a, keeps_collections (k a)) ->
  keeps_collections (bind m k).
Proof.
  intros Hm Hk self. unfold bind. specialize (Hm self).
  destruct (m self) as [self' [a | e]]; cbn [fst] in *; [| exact Hm].
  now rewrite Hk.
Qed.

Lemma keeps_set_sql sql : keeps_collections (C := C) (set_sql sql).
Proof. intros self. reflexivity. Qed.

Lemma keeps_cursor_execute sql : keeps_collections (cursor_execute sql).
Proof.
  intros self. unfold cursor_execute.
  now destruct (execute (_conn self) sql).
Qed.

Lemma keeps_conn_commit : keeps_collections conn_commit.
Proof. intros self. reflexivity. Qed.

(** Case analysis on the test that heads the method body in the goal. *)
Ltac by_cases :=
  match goal with
  | |- _ (if ?b then _ else _) => destruct b
  | |- _ (match ?x with _ => _ end) => destruct x
  end.

Lemma keeps_query sql : keeps_collections (query sql).
Proof.
  unfold query. apply keeps_bind; [apply keeps_cursor_execute | intros cur].
  by_cases; [by_cases |].
  - apply keeps_bind; [apply keeps_lift | intros result; apply keeps_ret].
  - apply keeps_bind; [apply keeps_lift | intros result; apply keeps_ret].
  - apply keeps_bind; [apply keeps_conn_commit | intros _; apply keeps_ret].
Qed.

Lemma keeps_collection_exists collection_name :
  keeps_collections (_collection_exists collection_name).
Proof.
  unfold _collection_exists.
  apply keeps_bind; [apply keeps_query | intros result; apply keeps_lift].
Qed.

Lemma keeps_add_features collection_name features :
  keeps_collections (add_features collection_name features).
Proof.
  induction features as [| f features IH]; cbn [add_features].
  - apply keeps_ret.
  - apply keeps_bind; [apply keeps_lift | intros sql].
    apply keeps_bind; [apply keeps_query | intros _; exact IH].
Qed.

Lemma keeps_new_collection collection_name schema :
  keeps_collections (new_collection collection_name schema).
Proof.
  unfold new_collection.
  apply keeps_bind; [apply keeps_collection_exists | intros found].
  by_cases; [apply keeps_raise |].
  apply keeps_bind; [apply keeps_lift | intros properties].
  apply keeps_bind; [apply keeps_lift | intros columns].
  apply keeps_bind; [apply keeps_query | intros _; apply keeps_ret].
Qed.

Lemma keeps_drop_collection collection_name :
  keeps_collections (drop_collection collection_name).
Proof.
  unfold drop_collection.
  apply keeps_bind; [apply keeps_collection_exists | intros found].
  by_cases; [apply keeps_raise |].
  apply keeps_bind; [apply keeps_query | intros _; apply keeps_ret].
Qed.

Lemma keeps_add_feature collection_name feature :
  keeps_collections (add_feature collection_name feature).
Proof.
  unfold add_feature.
  apply keeps_bind; [apply keeps_add_features | intros _; apply keeps_ret].
Qed.

Lemma keeps_find_features collection_name query max_records fmt bbox
    bbox_mode bbox_crs :
  keeps_collections
    (find_features collection_name query max_records fmt bbox bbox_mode bbox_crs).
Proof.
  unfold find_features.
  apply keeps_bind; [apply keeps_collection_exists | intros found].
  by_cases; [apply keeps_raise |].
  apply keeps_bind; [apply keeps_lift | intros translated].
  by_cases; [| by_cases; [| apply keeps_raise]].
  - apply keeps_bind; [apply keeps_set_sql | intros _].
    apply keeps_bind; [apply keeps_cursor_execute | intros cursor].
    apply keeps_bind; [apply keeps_lift | intros fetched].
    apply keeps_bind; [apply keeps_lift | intros result_set; apply keeps_ret].
  - apply keeps_bind; [apply keeps_set_sql | intros _].
    apply keeps_bind; [apply keeps_cursor_execute | intros cursor].
    apply keeps_bind; [apply keeps_lift | intros fetched].
    by_cases; apply keeps_ret.
Qed.

(** The existence check is a statement sent to the connection. *)
Lemma table_exists_is_select collection_name :
  contains "SELECT" (_TABLE_EXISTS_SQL collection_name) = true.
Proof. reflexivity. Qed.

(** C10.  The list behind [collections] is what [_get_collections]
    returned when the service was built, and no operation writes it:
    [new_collection], [drop_collection], [add_feature], [add_features],
    [find_features] and [query] return the service with the list it had.
    The existence check does not read the list: it sends the statement of
    [_TABLE_EXISTS_SQL] to the connection and answers from the reply. *)
Theorem collections_cache_is_never_refreshed :
  (forall conn conn' self,
      init conn = (conn', Ok self) ->
      exists self0,
        _get_collections {| _conn := conn; _collections := []; _sql := None |}
        = (self0, Ok (collections self))
        /\ conn' = _conn self0)
  /\ (forall self collection_name schema,
      collections (new_collection collection_name schema self).1 = collections self)
  /\ (forall self collection_name,
      collections (drop_collection collection_name self).1 = collections self)
  /\ (forall self collection_name feature,
      collections (add_feature collection_name feature self).1 = collections self)
  /\ (forall self collection_name features,
      collections (add_features collection_name features self).1 = collections self)
  /\ (forall self collection_name query max_records fmt bbox bbox_mode bbox_crs,
      collections (find_features collection_name query max_records fmt bbox
                     bbox_mode bbox_crs self).1 = collections self)
  /\ (forall self sql, collections (query sql self).1 = collections self)
  /\ (forall self collection_name names,
      _collection_exists collection_name (with_collections self names)
      = match execute (_conn self) (_TABLE_EXISTS_SQL collection_name) with
        | (conn, Ok cur) =>
            (set_conn (with_collections self names) conn,
             result <- fetched cur ;; subscript0 result)
        | (conn, Raise e) => (set_conn (with_collections self names) conn, Raise e)
        end).
Proof.
  split; [| split; [| split; [| split; [| split; [| split; [| split]]]]]].
  - intros conn conn' self. unfold init.
    destruct (_get_collections _) as [self0 [names | e]]; [| discriminate].
    intros [= <- <-]. exists self0. split; reflexivity.
  - intros self collection_name schema.
    apply keeps_new_collection.
  - intros self collection_name.
    apply keeps_drop_collection.
  - intros self collection_name feature.
    apply keeps_add_feature.
  - intros self collection_name features. apply keeps_add_features.
  - intros self collection_name query max_records fmt bbox bbox_mode bbox_crs.
    apply keeps_find_features.
  - intros self sql. apply keeps_query.
  - intros self collection_name names. unfold _collection_exists, bind.
    rewrite query_unfold, table_exists_is_select. cbn [_conn with_collections].
    destruct (execute (_conn self) (_TABLE_EXISTS_SQL collection_name))
      as [conn [cur | e]]; [| reflexivity].
    unfold lift. now destruct (fetched cur).
Qed.

End RemoteProperties.

(** C6, at a concrete input: nothing has been sent to the connection. *)
Lemma add_feature_without_name_witness :
  @RemoteGeoPostgreSQLService.add_feature _ Mock.connection Mock.json_module
    "parks" (nameless 2) (fresh [] [])
  = (fresh [] [], Raise (KeyError "S_NAME")).
Proof.
  apply (proj2 (@add_feature_without_name _ Mock.connection Mock.json_module
                  (fresh [] []) "parks" (nameless 2) [("area", PInt 7)]
                  eq_refl eq_refl)
           (point 2 2) (Mock.dumps (JObject [("area", JScalar (PInt 7))]))
           eq_refl eq_refl).
Defined.





(** C10, at a concrete input: creating a collection on a service that lists
    two names. *)
Lemma collections_cache_is_never_refreshed_witness :
  RemoteGeoPostgreSQLService.collections
    (@RemoteGeoPostgreSQLService.new_collection _ Mock.connection "parks"
       {| s_properties := Some [("height", "float:8.2")] |}
       (fresh [Mock.select [[PBool false]]] [PStr "rivers"; PStr "lakes"])).1
  = [PStr "rivers"; PStr "lakes"].
Proof.
  apply (proj1 (proj2 (@collections_cache_is_never_refreshed _ Mock.connection
                         Mock.json_module))
           (fresh [Mock.select [[PBool false]]] [PStr "rivers"; PStr "lakes"])
           "parks" {| s_properties := Some [("height", "float:8.2")] |}).
Defined.

(** The list of [collections] after a collection has been created: the
    database reports three tables, the property still lists two. *)
Lemma collections_stale_after_create :
  let a := [PStr "rivers"] in
  let b := [PStr "lakes"] in
  let c := [PStr "parks"] in
  let conn :=
    {| Mock.replies := [ Mock.select [a; b];
                         Mock.select [[PBool false]];
                         Ok Mock.no_result;
                         Mock.select [a; b; c] ];
       Mock.calls := [] |} in
  let schema := {| s_properties := Some [("height", "float:8.2")] |} in
  exists conn1 self self',
    @RemoteGeoPostgreSQLService.init _ Mock.connection conn = (conn1, Ok self)
    /\ RemoteGeoPostgreSQLService.collections self = [PStr "rivers"; PStr "lakes"]
    /\ @RemoteGeoPostgreSQLService.new_collection _ Mock.connection "parks" schema self
       = (self', Ok "Collection created")
    /\ RemoteGeoPostgreSQLService.collections self' = [PStr "rivers"; PStr "lakes"]
    /\ (@RemoteGeoPostgreSQLService._get_collections _ Mock.connection self').2
       = Ok [PStr "rivers"; PStr "lakes"; PStr "parks"].
Proof.
  do 3 eexists. split; [reflexivity |]. split; [reflexivity |].
  split; [reflexivity |]. split; reflexivity.
Qed.

(** ** The column-type mapper *)

Section Splitting.
Variable sep : ascii.

Let sep_str : string := String sep EmptyString.

Lemma contains_char_cons (c : ascii) (s : string) :
  contains sep_str (String c s) = Ascii.eqb c sep || contains sep_str s.
Proof.
  unfold sep_str. cbn [contains String.prefix].
  destruct (Ascii.ascii_dec sep c) as [-> | Hne].
  - rewrite Ascii.eqb_refl. now destruct s.
  - destruct (Ascii.eqb_spec c sep) as [-> | _]; [contradiction | reflexivity].
Qed.

Lemma contains_char_app (a b : string) :
  contains sep_str (a +:+ b) = contains sep_str a || contains sep_str b.
Proof.
  induction a as [| c a IH].
  - change ("" +:+ b) with b. now destruct b.
  - change (String c a +:+ b) with (String c (a +:+ b)).
    rewrite !contains_char_cons, IH. now rewrite orb_assoc.
Qed.

(** A text without the separator is one piece. *)
Lemma split_none (s : string) :
  contains sep_str s = false -> split sep s = [s].
Proof.
  induction s as [| c s IH]; [reflexivity |].
  rewrite contains_char_cons. intros [Hc Hs]%orb_false_elim.
  cbn [split]. now rewrite Hc, (IH Hs).
Qed.

(** The first separator ends the first piece. *)
Lemma split_app (a b : string) :
  contains sep_str a = false ->
  split sep (a +:+ String sep b) = a :: split sep b.
Proof.
  induction a as [| c a IH]; intros Ha.
  - change ("" +:+ String sep b) with (String sep b).
    cbn [split]. now rewrite Ascii.eqb_refl.
  - rewrite contains_char_cons in Ha. apply orb_false_elim in Ha as [Hc Ha].
    change (String c a +:+ String sep b) with (String c (a +:+ String sep b)).
    cbn [split]. now rewrite Hc, (IH Ha).
Qed.

End Splitting.

(** C5 (as amended).  The mapper is a function of the name and the
    descriptor, read in this order: the descriptor [str] gives a character
    varying(256) column; a descriptor that contains [int] gives an integer
    column; a descriptor that contains [float] and not [int] gives a numeric
    column, plain when the descriptor has no colon and with precision and
    scale when it ends in [:precision.scale]; every other descriptor raises
    [NotImplementedError]. *)
Theorem make_column_by_descriptor (name typ : string) :
  (typ = "str" ->
     _make_column name typ
     = Ok (name +:+ " character varying(256) COLLATE pg_catalog."
                +:+ dq +:+ "default" +:+ dq))
  /\ (contains "int" typ = true -> _make_column name typ = Ok (name +:+ " integer"))
  /\ (contains "int" typ = false -> contains "float" typ = true ->
        (exists prec_str, _make_column name typ = Ok (name +:+ " numeric" +:+ prec_str))
        /\ (contains ":" typ = false ->
              _make_column name typ = Ok (name +:+ " numeric"))
        /\ (forall base precision scale,
              typ = base +:+ ":" +:+ precision +:+ "." +:+ scale ->
              contains ":" base = false ->
              contains ":" precision = false -> contains "." precision = false ->
              contains ":" scale = false -> contains "." scale = false ->
              _make_column name typ
              = Ok (name +:+ " numeric(" +:+ precision +:+ "," +:+ scale +:+ ")")))
  /\ (typ ≠ "str" -> contains "int" typ = false -> contains "float" typ = false ->
        _make_column name typ
        = Raise (NotImplementedError ("Column type " +:+ typ +:+ " not implemented")))
  /\ (forall name' typ', name' = name -> typ' = typ ->
        _make_column name' typ' = _make_column name typ).
Proof.
  split; [| split; [| split; [| split]]].
  - intros ->. reflexivity.
  - intros Hint. unfold _make_column.
    destruct (String.eqb_spec typ "str") as [-> | _]; [discriminate |].
    now rewrite Hint.
  - intros Hint Hfloat.
    assert (Hstr : String.eqb typ "str" = false).
    { destruct (String.eqb_spec typ "str") as [-> | _]; [discriminate | reflexivity]. }
    unfold _make_column. rewrite Hstr, Hint, Hfloat. split; [| split].
    + eexists. reflexivity.
    + intros Hcolon. rewrite (split_none ":" typ Hcolon). cbn.
      now rewrite append_nil_r.
    + intros base precision scale -> Hbase Hp1 Hp2 Hs1 Hs2.
      change (":" +:+ precision +:+ "." +:+ scale)
        with (String ":" (precision +:+ "." +:+ scale)).
      rewrite (split_app ":" base _ Hbase).
      rewrite (split_none ":" (precision +:+ "." +:+ scale)).
      2:{ rewrite (contains_char_app ":" precision), Hp1.
          change ("." +:+ scale) with (String "." scale).
          now rewrite (contains_char_cons ":" "." scale), Hs1. }
      cbn [List.length Nat.eqb nth].
      change ("." +:+ scale) with (String "." scale).
      rewrite (split_app "." precision scale Hp2), (split_none "." scale Hs2).
      reflexivity.
  - intros Hstr Hint Hfloat. unfold _make_column.
    now rewrite (eqb_ne _ _ Hstr), Hint, Hfloat.
  - now intros name' typ' -> ->.
Qed.

(** C5, at a concrete input: the descriptor [float:8.2]. *)
Lemma make_column_by_descriptor_witness :
  _make_column "height" "float:8.2" = Ok "height numeric(8,2)".
Proof.
  apply (proj2 (proj2 (proj1 (proj2 (proj2
           (make_column_by_descriptor "height" "float:8.2"))) eq_refl eq_refl))
           "float" "8" "2" eq_refl eq_refl eq_refl eq_refl eq_refl eq_refl).
Defined.

(** C5 as stated fails for a descriptor that contains [float] and [int]:
    the column is an integer column, with or without the suffix. *)
Lemma make_column_float_with_int :
  contains "float" "pointfloat:8.2" = true
  /\ _make_column "height" "pointfloat:8.2" = Ok "height integer"
  /\ contains "float" "pointfloat" = true
  /\ _make_column "height" "pointfloat" = Ok "height integer".
Proof. repeat split. Qed.

(** * Further properties *)

(** ** The local service: what a search returns *)

Section LocalSearch.
Context `{Evaluator}.
Import LocalGeoDBService.

Implicit Types (f : Feature) (collection result_set : list Feature).

Lemma recoverable_cons compiled f collection :
  recoverable compiled (f :: collection) -> recoverable compiled collection.
Proof. intros Hrec g e Hg. apply Hrec. now right. Qed.

Lemma recoverable_app_l compiled collection collection' :
  recoverable compiled (collection ++ collection') -> recoverable compiled collection.
Proof. intros Hrec g e Hg. apply Hrec, elem_of_app. now left. Qed.

Lemma recoverable_head compiled f collection :
  recoverable compiled (f :: collection) -> recoverable compiled [f].
Proof.
  intros Hrec g e Hg%list_elem_of_singleton. subst g. apply Hrec. now left.
Qed.

(** A feature that is not selected leaves the loop as it was. *)
Lemma find_loop_unselected compiled max_records f collection result_set :
  recoverable compiled [f] -> selected compiled f = false ->
  find_loop compiled max_records (f :: collection) result_set
  = find_loop compiled max_records collection result_set.
Proof.
  intros Hrec Hsel. unfold selected in Hsel.
  destruct (eval compiled (_locals f)) as [v | e] eqn:He.
  - now apply (find_loop_false _ _ _ _ _ v).
  - apply (find_loop_skip _ _ _ _ _ e He), (Hrec f e); [left | exact He].
Qed.

Lemma find_loop_selected compiled max_records f collection result_set :
  selected compiled f = true ->
  find_loop compiled max_records (f :: collection) result_set
  = if Z.of_nat (List.length (result_set ++ [f])) >=? max_records
    then Ok (result_set ++ [f])
    else find_loop compiled max_records collection (result_set ++ [f]).
Proof.
  unfold selected. destruct (eval compiled (_locals f)) as [v | e] eqn:He;
    [| discriminate].
  intros Hv. now apply (find_loop_match _ _ _ _ _ v).
Qed.

(** The loop appends the selected features, in order, until the result has
    [max_records] of them, or one when [max_records] is below 1. *)
Lemma find_loop_take compiled max_records collection :
  recoverable compiled collection ->
  forall result_set,
    Z.of_nat (List.length result_set) < Z.max max_records 1 ->
    find_loop compiled max_records collection result_set
    = Ok (result_set
            ++ take (Z.to_nat (Z.max max_records 1) - List.length result_set)
                 (List.filter (selected compiled) collection)).
Proof.
  induction collection as [| f collection IH]; intros Hrec result_set Hlen.
  - cbn. now rewrite take_nil, app_nil_r.
  - pose proof (recoverable_cons _ _ _ Hrec) as Hrest. cbn [List.filter].
    destruct (selected compiled f) eqn:Hsel.
    + rewrite (find_loop_selected _ _ _ _ _ Hsel), length_app. cbn [List.length].
      destruct (Z.geb_spec (Z.of_nat (List.length result_set + 1)) max_records)
        as [Hge | Hlt].
      * replace (Z.to_nat (Z.max max_records 1) - List.length result_set)%nat
          with 1%nat by lia.
        reflexivity.
      * rewrite (IH Hrest) by (rewrite length_app; cbn [List.length]; lia).
        rewrite length_app. cbn [List.length].
        replace (Z.to_nat (Z.max max_records 1) - List.length result_set)%nat
          with (S (Z.to_nat (Z.max max_records 1) - (List.length result_set + 1)))
          by lia.
        cbn [take]. now rewrite <- app_assoc.
    + rewrite (find_loop_unselected _ _ _ _ _ (recoverable_head _ _ _ Hrec) Hsel).
      now apply IH.
Qed.

(** X1.  When the filter compiles and its evaluation raises nothing but
    [Exception]s, [find_features] returns the first [max_records] selected
    features of the collection, in the order of the collection; a
    [max_records] below 1 counts as 1. *)
Theorem local_find_features_takes_first_matches
    (geodb : gmap string (list Feature)) (collection_name : string)
    (query : option string) (max_records : Z) (fmt : string)
    (bbox : option BBox) (bbox_mode : string) (bbox_crs : Z)
    (compiled : code) (collection : list Feature) :
  truthy_seq bbox = false ->
  compile query = Ok compiled ->
  geodb !! collection_name = Some collection ->
  recoverable compiled collection ->
  find_features geodb collection_name query max_records fmt bbox bbox_mode bbox_crs
  = Ok (take (Z.to_nat (Z.max max_records 1))
          (List.filter (selected compiled) collection)).
Proof.
  intros Hbbox Hcompile Hfile Hrec. unfold find_features, _get_collection.
  rewrite Hbbox, Hcompile, Hfile. cbn [rbind].
  rewrite (find_loop_take _ _ _ Hrec) by (cbn; lia).
  cbn [app List.length]. now rewrite Nat.sub_0_r.
Qed.

(** X2.  With [max_records] at least the size of the collection, and at
    least 1, [find_features] returns every selected feature. *)
Theorem local_find_features_returns_all_matches
    (geodb : gmap string (list Feature)) (collection_name : string)
    (query : option string) (max_records : Z) (fmt : string)
    (bbox : option BBox) (bbox_mode : string) (bbox_crs : Z)
    (compiled : code) (collection : list Feature) :
  truthy_seq bbox = false ->
  compile query = Ok compiled ->
  geodb !! collection_name = Some collection ->
  recoverable compiled collection ->
  1 <= max_records -> Z.of_nat (List.length collection) <= max_records ->
  find_features geodb collection_name query max_records fmt bbox bbox_mode bbox_crs
  = Ok (List.filter (selected compiled) collection).
Proof.
  intros Hbbox Hcompile Hfile Hrec Hone Hsize. unfold find_features, _get_collection.
  rewrite Hbbox, Hcompile, Hfile. cbn [rbind].
  rewrite (find_loop_take _ _ _ Hrec) by (cbn; lia).
  cbn [app List.length]. rewrite Nat.sub_0_r. f_equal. apply take_ge.
  pose proof (filter_length (selected compiled) collection). lia.
Qed.

(** X3.  [find_feature] returns the first selected feature of the
    collection, and [None] when no feature is selected. *)
Theorem local_find_feature_is_first_match
    (geodb : gmap string (list Feature)) (collection_name : string)
    (query : option string) (fmt : string)
    (bbox : option BBox) (bbox_mode : string) (bbox_crs : Z)
    (compiled : code) (collection : list Feature) :
  truthy_seq bbox = false ->
  compile query = Ok compiled ->
  geodb !! collection_name = Some collection ->
  recoverable compiled collection ->
  find_feature geodb collection_name query fmt bbox bbox_mode bbox_crs
  = Ok (head (List.filter (selected compiled) collection)).
Proof.
  intros Hbbox Hcompile Hfile Hrec.
  unfold find_feature, find_features, _get_collection.
  rewrite Hbbox, Hcompile, Hfile. cbn [rbind].
  rewrite (find_loop_take _ _ _ Hrec) by (cbn; lia).
  cbn [rbind]. now destruct (List.filter (selected compiled) collection).
Qed.

(** The loop on a collection in two parts, while the result is short of
    [max_records]. *)
Lemma find_loop_prefix compiled max_records before collection :
  recoverable compiled before ->
  forall result_set,
    Z.of_nat (List.length result_set
              + List.length (List.filter (selected compiled) before))
      < Z.max max_records 1 ->
    find_loop compiled max_records (before ++ collection) result_set
    = find_loop compiled max_records collection
        (result_set ++ List.filter (selected compiled) before).
Proof.
  induction before as [| f before IH]; intros Hrec result_set Hlen.
  - cbn. now rewrite app_nil_r.
  - pose proof (recoverable_cons _ _ _ Hrec) as Hrest.
    rewrite <- app_comm_cons. cbn [List.filter] in *.
    destruct (selected compiled f) eqn:Hsel.
    + cbn [List.length] in Hlen.
      rewrite (find_loop_selected _ _ _ _ _ Hsel), length_app. cbn [List.length].
      destruct (Z.geb_spec (Z.of_nat (List.length result_set + 1)) max_records)
        as [Hge | Hlt]; [lia |].
      rewrite (IH Hrest) by (rewrite length_app; cbn [List.length]; lia).
      now rewrite <- app_assoc.
    + rewrite (find_loop_unselected _ _ _ _ _ (recoverable_head _ _ _ Hrec) Hsel).
      now apply IH.
Qed.

(** X4.  An exception that is no [Exception] (a [SystemExit], say) is not
    caught: when it is raised for a feature that the loop reaches, it ends
    the call, whatever has been selected before. *)
Theorem local_find_features_base_exception
    (geodb : gmap string (list Feature)) (collection_name : string)
    (query : option string) (max_records : Z) (fmt : string)
    (bbox : option BBox) (bbox_mode : string) (bbox_crs : Z)
    (compiled : code) (before after : list Feature) (f : Feature) (e : exn) :
  truthy_seq bbox = false ->
  compile query = Ok compiled ->
  geodb !! collection_name = Some (before ++ f :: after) ->
  recoverable compiled before ->
  Z.of_nat (List.length (List.filter (selected compiled) before))
    < Z.max max_records 1 ->
  eval compiled (_locals f) = Raise e -> is_Exception e = false ->
  find_features geodb collection_name query max_records fmt bbox bbox_mode bbox_crs
  = Raise e.
Proof.
  intros Hbbox Hcompile Hfile Hrec Hlen He Hclass.
  unfold find_features, _get_collection.
  rewrite Hbbox, Hcompile, Hfile. cbn [rbind].
  rewrite (find_loop_prefix _ _ _ _ Hrec) by exact Hlen.
  cbn [find_loop]. unfold eval_feature. now rewrite He, Hclass.
Qed.

(** The variables after [update]: the last pair of a name wins. *)
Lemma dict_update_lookup (d : gmap string scalar) (items : list (string * scalar))
    (name : string) :
  dict_update d items !! name
  = match assoc name (reverse items) with
    | Some v => Some v
    | None => d !! name
    end.
Proof.
  unfold dict_update. induction items as [| [k v] items IH] using rev_ind.
  - reflexivity.
  - rewrite foldl_snoc, reverse_snoc. cbn [assoc fst snd].
    destruct (String.eqb_spec k name) as [-> | Hne].
    + apply lookup_insert_eq.
    + rewrite lookup_insert_ne by exact Hne. exact IH.
Qed.

(** X5.  The mapping that [find_features] hands to [eval] as the locals of
    a feature: every property under its name, the last one when a name
    occurs twice; and [id], when the id of the feature is a true value and no
    property has that name.  The mapping has no other entry. *)
Theorem local_variables_of_feature (f : Feature) (name : string) :
  _locals f !! name
  = match assoc name (reverse (default [] (f_properties f))) with
    | Some v => Some v
    | None =>
        match f_id f with
        | Some i => if truthy i && String.eqb name "id" then Some i else None
        | None => None
        end
    end.
Proof.
  unfold _locals. rewrite dict_update_lookup.
  destruct (assoc name _); [reflexivity |].
  destruct (f_id f) as [i |]; [| apply lookup_empty].
  destruct (truthy i); cbn [andb]; [| apply lookup_empty].
  destruct (String.eqb_spec name "id") as [-> | Hne].
  - apply lookup_singleton_eq.
  - apply lookup_singleton_ne. congruence.
Qed.

(** X6.  The order of the checks of [find_features]: a bounding box is
    refused whatever the query and the collection are; then a query that
    does not compile is reported, also for a collection without a file; a
    missing file is reported last. *)
Theorem local_find_features_error_order
    (geodb : gmap string (list Feature)) (collection_name : string)
    (query : option string) (max_records : Z) (fmt : string)
    (bbox : option BBox) (bbox_mode : string) (bbox_crs : Z) :
  (truthy_seq bbox = true ->
     find_features geodb collection_name query max_records fmt bbox bbox_mode bbox_crs
     = Raise (NotImplementedError "bbox feature not implemented for driver local"))
  /\ (forall e, truthy_seq bbox = false -> compile query = Raise e ->
        find_features geodb collection_name query max_records fmt bbox bbox_mode bbox_crs
        = Raise e)
  /\ (forall compiled, truthy_seq bbox = false -> compile query = Ok compiled ->
        geodb !! collection_name = None ->
        find_features geodb collection_name query max_records fmt bbox bbox_mode bbox_crs
        = Raise (FileNotFoundError
                   ("Could not find file " +:+ collection_name +:+ ".geojson"))).
Proof.
  unfold find_features, _get_collection. split; [| split].
  - now intros ->.
  - intros e -> ->. reflexivity.
  - intros compiled -> -> ->. reflexivity.
Qed.

End LocalSearch.

(** The interpreter [Tiny] raises [NameError] and nothing else. *)
Lemma tiny_recoverable compiled collection :
  @recoverable Tiny.evaluator compiled collection.
Proof.
  intros f e _. cbn [eval Tiny.evaluator]. unfold Tiny.run, Tiny.global_lookup.
  destruct compiled; try discriminate.
  destruct (_ !! _); [discriminate |].
  destruct (assoc id Tiny.module_globals); [discriminate |].
  destruct (existsb _ _); [discriminate |]. now intros [= <-].
Qed.

(** X1, at a concrete input: two of the three features with a property
    [S_NAME], a name that neither the module nor the builtins bind. *)
Lemma local_find_features_takes_first_matches_witness :
  @LocalGeoDBService.find_features Tiny.evaluator mixed "mixed" (Some "S_NAME") 2
    "geopandas" None "contains" 4326
  = Ok [park 1 "north"; park 3 "west"].
Proof.
  exact (@local_find_features_takes_first_matches Tiny.evaluator mixed "mixed"
           (Some "S_NAME") 2 "geopandas" None "contains" 4326 (Tiny.EName "S_NAME")
           [park 1 "north"; nameless 2; park 3 "west"; park 4 "east"]
           eq_refl eq_refl eq_refl (tiny_recoverable _ _)).
Defined.

(** X2, at a concrete input: the filter [S_NAME] again. *)
Lemma local_find_features_returns_all_matches_witness :
  @LocalGeoDBService.find_features Tiny.evaluator mixed "mixed" (Some "S_NAME") 4
    "geopandas" None "contains" 4326
  = Ok [park 1 "north"; park 3 "west"; park 4 "east"].
Proof.
  exact (@local_find_features_returns_all_matches Tiny.evaluator mixed "mixed"
           (Some "S_NAME") 4 "geopandas" None "contains" 4326 (Tiny.EName "S_NAME")
           [park 1 "north"; nameless 2; park 3 "west"; park 4 "east"]
           eq_refl eq_refl eq_refl (tiny_recoverable _ _)
           ltac:(lia) ltac:(cbn; lia)).
Defined.

(** X3, at a concrete input: the first feature with a property [area]. *)
Lemma local_find_feature_is_first_match_witness :
  @LocalGeoDBService.find_feature Tiny.evaluator mixed "mixed" (Some "area")
    "geojson" None "contains" 4326
  = Ok (Some (nameless 2)).
Proof.
  exact (@local_find_feature_is_first_match Tiny.evaluator mixed "mixed"
           (Some "area") "geojson" None "contains" 4326 (Tiny.EName "area")
           [park 1 "north"; nameless 2; park 3 "west"; park 4 "east"]
           eq_refl eq_refl eq_refl (tiny_recoverable _ _)).
Defined.

(** X4, at a concrete input: the filter [exit()]. *)
Lemma local_find_features_base_exception_witness :
  @LocalGeoDBService.find_features Quit.evaluator mixed "mixed" (Some "exit()") 2
    "geopandas" None "contains" 4326
  = Raise SystemExit.
Proof.
  apply (@local_find_features_base_exception Quit.evaluator mixed "mixed"
           (Some "exit()") 2 "geopandas" None "contains" 4326 None
           [] [nameless 2; park 3 "west"; park 4 "east"] (park 1 "north") SystemExit
           eq_refl eq_refl eq_refl).
  - intros f e Hf. now apply elem_of_nil in Hf.
  - cbn. lia.
  - reflexivity.
  - reflexivity.
Defined.

(** X6, at a concrete input: a malformed query on a collection without a
    file. *)
Lemma local_find_features_error_order_witness :
  @LocalGeoDBService.find_features Tiny.evaluator mixed "lakes" (Some "id ==") 2
    "geopandas" None "contains" 4326
  = Raise (SyntaxError "invalid syntax").
Proof.
  apply (proj1 (proj2 (@local_find_features_error_order Tiny.evaluator mixed
                         "lakes" (Some "id ==") 2 "geopandas" None "contains" 4326))
           (SyntaxError "invalid syntax") eq_refl eq_refl).
Defined.

(** ** The query translator: edges *)

(** X7.  A bounding box with one, two or three corners raises
    [IndexError], before the mode and the format are looked at. *)
Theorem alter_query_short_bbox (query : option string) (bbox : BBox)
    (bbox_mode fmt : string) (srid : option Z) :
  (0 < List.length bbox < 4)%nat ->
  _alter_query query (Some bbox) bbox_mode fmt srid = Raise IndexError.
Proof.
  intros Hlen.
  destruct bbox as [| a [| b [| c [| d more]]]]; cbn [List.length] in Hlen;
    try lia; reflexivity.
Qed.

(** X7, at a concrete input: three corners, an unknown mode and format. *)
Lemma alter_query_short_bbox_witness :
  _alter_query (Some "height > 3") (Some [PInt 1; PInt 2; PInt 3]) "overlaps" "xml"
               (Some 4326)
  = Raise IndexError.
Proof.
  apply (alter_query_short_bbox (Some "height > 3") [PInt 1; PInt 2; PInt 3]
           "overlaps" "xml" (Some 4326)).
  cbn. lia.
Defined.

Lemma append_nonempty_l (a b : string) : a ≠ "" -> a +:+ b ≠ "".
Proof. destruct a; [contradiction | discriminate]. Qed.

Lemma truthy_str_nonempty (q : option string) :
  truthy_str q = true -> default "" q ≠ "".
Proof.
  destruct q as [q |]; [| discriminate]. cbn.
  destruct (String.eqb_spec q ""); [discriminate | auto].
Qed.

(** X8.  What the translator returns is never the empty text. *)
Theorem alter_query_not_empty (query : option string) (bbox : option BBox)
    (bbox_mode fmt : string) (srid : option Z) (predicate : string) :
  _alter_query query bbox bbox_mode fmt srid = Ok predicate -> predicate ≠ "".
Proof.
  destruct bbox as [[| c corners] |].
  2:{ destruct (bbox_query_of (c :: corners) bbox_mode srid) as [b | e] eqn:Hb.
      - rewrite (alter_query_with_bbox _ _ _ _ _ _ _ Hb).
        pose proof (bbox_query_of_nonempty _ _ _ _ Hb) as Hne.
        destruct (truthy_str query) eqn:Hq.
        + destruct (String.eqb fmt "geojson"); [intros [= <-]; discriminate |].
          destruct (String.eqb fmt "geopandas"); [| discriminate].
          intros [= <-]. now apply append_nonempty_l, truthy_str_nonempty.
        + intros [= <-]. now apply (truthy_str_nonempty (Some b)).
      - now rewrite (alter_query_bbox_error _ _ _ _ _ _ _ Hb). }
  all: rewrite alter_query_without_bbox by reflexivity;
    destruct (truthy_str query) eqn:Hq; [| intros [= <-]; discriminate];
    (destruct (String.eqb fmt "geojson"); [intros [= <-]; discriminate |]);
    (destruct (String.eqb fmt "geopandas"); [| discriminate]);
    intros [= <-]; now apply truthy_str_nonempty.
Qed.

(** X8, at a concrete input: an empty query and an empty bounding box. *)
Lemma alter_query_not_empty_witness :
  _alter_query (Some "") (Some []) "contains" "geojson" None = Ok "TRUE"
  /\ "TRUE" ≠ "".
Proof.
  split; [reflexivity |].
  apply (alter_query_not_empty (Some "") (Some []) "contains" "geojson" None "TRUE").
  reflexivity.
Defined.

(** ** The remote service: what is sent to the database, and when *)

(** Case analysis on the test at the head of a method body. *)
Ltac split_test :=
  match goal with
  | |- _ (if ?b then _ else _) => destruct b
  | |- _ (match ?x with _ => _ end) => destruct x
  end.

Section RemoteProtocol.
Context {C : Type} `{Connection C} `{JsonModule}.
Import RemoteGeoPostgreSQLService.

Implicit Types (self : Service C) (sql : string) (conn : C).

(** [query] on a SELECT that answers with one row, with none, with several. *)
Lemma query_select_reply self sql conn answer :
  contains "SELECT" sql = true ->
  replies_with (_conn self) sql conn answer ->
  query sql self
  = (set_conn self conn,
     Ok (match answer with
         | [row] => OneRow (Some row)
         | _ => AllRows answer
         end)).
Proof.
  unfold replies_with. intros Hselect Hexec.
  rewrite query_unfold, Hexec, Hselect.
  unfold fetched, fetchone, fetchall. cbn [rowcount rows rbind].
  destruct answer as [| row [| row' answer]]; try reflexivity.
  cbn [List.length].
  destruct (Z.eqb_spec (Z.of_nat (S (S (List.length answer)))) 1); [lia | reflexivity].
Qed.

(** The existence check that answers with the one row [[v]]. *)
Lemma collection_exists_reply self collection_name conn v :
  replies_with (_conn self) (_TABLE_EXISTS_SQL collection_name) conn [[v]] ->
  _collection_exists collection_name self = (set_conn self conn, Ok (ItemValue v)).
Proof.
  intros Hreply. unfold _collection_exists, bind.
  now rewrite (query_select_reply _ _ _ _ (table_exists_is_select _) Hreply).
Qed.

(** The first element that fails ends a comprehension. *)
Lemma map_outcome_first_error {A B} (f : A -> outcome B) before x after e :
  Forall (fun a => is_Ok (f a) = true) before -> f x = Raise e ->
  map_outcome f (before ++ x :: after) = Raise e.
Proof.
  intros Hbefore Hx. induction Hbefore as [| a before Ha _ IH]; cbn [app map_outcome].
  - now rewrite Hx.
  - destruct (f a); [| discriminate]. cbn [rbind]. now rewrite IH.
Qed.

(** [new_collection] behind its existence check. *)
Lemma new_collection_after_check self collection_name schema conn v :
  replies_with (_conn self) (_TABLE_EXISTS_SQL collection_name) conn [[v]] ->
  new_collection collection_name schema self
  = if truthy v then
      (set_conn self conn,
       Raise (ValueError ("Collection " +:+ collection_name +:+ " exists")))
    else
      bind (lift (getitem "properties" (s_properties schema))) (fun properties =>
      bind (lift (map_outcome (fun kv => _make_column kv.1 kv.2) properties))
        (fun columns =>
      bind (query (_CREATE_COLLECTION_SQL collection_name
                     (join ("," +:+ nl) columns))) (fun _ =>
      ret "Collection created"))) (set_conn self conn).
Proof.
  intros Hreply. unfold new_collection, bind at 1.
  rewrite (collection_exists_reply _ _ _ _ Hreply). cbn [truthy_item].
  now destruct (truthy v).
Qed.

(** X9.  [new_collection] sends the existence check first, and stops there,
    with nothing created and nothing committed, when the collection exists,
    when the schema has no [properties], and when a descriptor is not
    supported; the error names the first such descriptor. *)
Theorem new_collection_refusals self collection_name schema conn v :
  replies_with (_conn self) (_TABLE_EXISTS_SQL collection_name) conn [[v]] ->
  (truthy v = true ->
     new_collection collection_name schema self
     = (set_conn self conn,
        Raise (ValueError ("Collection " +:+ collection_name +:+ " exists"))))
  /\ (truthy v = false -> s_properties schema = None ->
        new_collection collection_name schema self
        = (set_conn self conn, Raise (KeyError "properties")))
  /\ (forall before name typ after,
        truthy v = false ->
        s_properties schema = Some (before ++ (name, typ) :: after) ->
        Forall (fun kv => is_Ok (_make_column kv.1 kv.2) = true) before ->
        typ ≠ "str" -> contains "int" typ = false -> contains "float" typ = false ->
        new_collection collection_name schema self
        = (set_conn self conn,
           Raise (NotImplementedError ("Column type " +:+ typ +:+ " not implemented")))).
Proof.
  intros Hreply. rewrite (new_collection_after_check _ _ _ _ _ Hreply).
  split; [| split].
  - now intros ->.
  - intros -> ->. reflexivity.
  - intros before name typ after -> -> Hbefore Hstr Hint Hfloat.
    unfold bind, lift. cbn [getitem].
    rewrite (map_outcome_first_error _ before (name, typ) after
               (NotImplementedError ("Column type " +:+ typ +:+ " not implemented")));
      [reflexivity | exact Hbefore |].
    unfold _make_column. cbn [fst snd]. now rewrite (eqb_ne _ _ Hstr), Hint, Hfloat.
Qed.





(** *** The operations that read *)

Lemma only_executes_ret {A} (a : A) : only_executes (C := C) (ret a).
Proof. intros P HP self Hself. exact Hself. Qed.

Lemma only_executes_raise {A} (e : exn) : only_executes (C := C) (A := A) (raise e).
Proof. intros P HP self Hself. exact Hself. Qed.

Lemma only_executes_lift {A} (r : outcome A) : only_executes (C := C) (lift r).
Proof. intros P HP self Hself. exact Hself. Qed.

Lemma only_executes_set_sql sql : only_executes (C := C) (set_sql sql).
Proof. intros P HP self Hself. exact Hself. Qed.

Lemma only_executes_cursor_execute sql : only_executes (cursor_execute sql).
Proof.
  intros P HP self Hself. unfold cursor_execute.
  specialize (HP (_conn self) sql Hself).
  now destruct (execute (_conn self) sql).
Qed.

Lemma only_executes_bind {A B} (m : M C A) (k : A -> M C B) :
  only_executes m -> (forall a, only_executes (k a)) -> only_executes (bind m k).
Proof.
  intros Hm Hk P HP self Hself. unfold bind. specialize (Hm P HP self Hself).
  destruct (m self) as [self' [a | e]]; cbn [fst] in *; [| exact Hm].
  now apply Hk.
Qed.

(** [query] on a text with SELECT does not commit. *)
Lemma only_executes_query_select sql :
  contains "SELECT" sql = true -> only_executes (query sql).
Proof.
  intros Hselect. unfold query. rewrite Hselect.
  apply only_executes_bind; [apply only_executes_cursor_execute | intros cur].
  split_test;
    (apply only_executes_bind;
       [apply only_executes_lift | intros result; apply only_executes_ret]).
Qed.

Lemma only_executes_collection_exists collection_name :
  only_executes (_collection_exists collection_name).
Proof.
  unfold _collection_exists. apply only_executes_bind.
  - apply only_executes_query_select, table_exists_is_select.
  - intros result. apply only_executes_lift.
Qed.

Lemma only_executes_find_features collection_name query max_records fmt bbox
    bbox_mode bbox_crs :
  only_executes
    (find_features collection_name query max_records fmt bbox bbox_mode bbox_crs).
Proof.
  unfold find_features.
  apply only_executes_bind; [apply only_executes_collection_exists | intros found].
  split_test; [apply only_executes_raise |].
  apply only_executes_bind; [apply only_executes_lift | intros translated].
  split_test; [| split_test; [| apply only_executes_raise]].
  - apply only_executes_bind; [apply only_executes_set_sql | intros _].
    apply only_executes_bind; [apply only_executes_cursor_execute | intros cursor].
    apply only_executes_bind; [apply only_executes_lift | intros fetched].
    apply only_executes_bind; [apply only_executes_lift | intros result_set].
    apply only_executes_ret.
  - apply only_executes_bind; [apply only_executes_set_sql | intros _].
    apply only_executes_bind; [apply only_executes_cursor_execute | intros cursor].
    apply only_executes_bind; [apply only_executes_lift | intros fetched].
    split_test; apply only_executes_ret.
Qed.

(** X12.  The operations that read, [find_features], [find_feature],
    [_collection_exists], [_get_collections] and
    [_get_srid_from_collection], reach the connection through [execute]
    alone: whatever every [execute] keeps true of the connection is true
    after them, so none of them commits. *)
Theorem reads_only_execute :
  (forall collection_name query max_records fmt bbox bbox_mode bbox_crs,
      only_executes (find_features collection_name query max_records fmt bbox
                       bbox_mode bbox_crs))
  /\ (forall collection_name query fmt bbox bbox_mode bbox_crs,
      only_executes (find_feature collection_name query fmt bbox bbox_mode bbox_crs))
  /\ (forall collection_name, only_executes (_collection_exists collection_name))
  /\ only_executes _get_collections
  /\ (forall collection_name,
      only_executes (_get_srid_from_collection collection_name)).
Proof.
  split; [| split; [| split; [| split]]].
  - intros. apply only_executes_find_features.
  - intros. unfold find_feature.
    apply only_executes_bind; [apply only_executes_find_features | intros features].
    split_test; first [apply only_executes_ret | apply only_executes_raise].
  - apply only_executes_collection_exists.
  - unfold _get_collections. apply only_executes_bind.
    + now apply only_executes_query_select.
    + intros result. repeat split_test;
        first [apply only_executes_lift | apply only_executes_raise].
  - intros collection_name. unfold _get_srid_from_collection.
    apply only_executes_bind.
    + now apply only_executes_query_select.
    + intros result. apply only_executes_lift.
Qed.

(** *** [find_features] *)

Lemma limit_test (max_records : Z) : (max_records >? -1) = (0 <=? max_records).
Proof.
  destruct (Z.gtb_spec max_records (-1)), (Z.leb_spec 0 max_records);
    try reflexivity; lia.
Qed.

(** The rows of a statement that selects one column. *)
Lemma map_outcome_singletons (values : list scalar) :
  map_outcome (fun row : list scalar => index row 0) (map (fun v => [v]) values) = Ok values.
Proof.
  induction values as [| v values IH]; [reflexivity |].
  cbn [map map_outcome index lookup list_lookup rbind]. now rewrite IH.
Qed.

(** [find_features] behind the existence check, for a collection that
    exists and a format that is known. *)
Lemma find_features_sent self collection_name query max_records fmt bbox
    bbox_mode bbox_crs conn v predicate conn' cur :
  replies_with (_conn self) (_TABLE_EXISTS_SQL collection_name) conn [[v]] ->
  truthy v = true ->
  _alter_query query bbox bbox_mode fmt (Some bbox_crs) = Ok predicate ->
  let limit := if 0 <=? max_records then "LIMIT " +:+ str_int max_records else "" in
  let sql := if String.eqb fmt "geojson"
             then _FILTER_SQL collection_name predicate limit
             else _FILTER_LONG_SQL collection_name predicate limit in
  let self' := {| _conn := conn'; _collections := _collections self;
                  _sql := Some sql |} in
  execute conn sql = (conn', Ok cur) ->
  find_features collection_name query max_records fmt bbox bbox_mode bbox_crs self
  = if String.eqb fmt "geojson" then
      (self', answer <- fetchall cur ;;
              objects <- map_outcome (fun row : list scalar => index row 0) answer ;;
              Ok (Features objects))
    else if String.eqb fmt "geopandas" then
      (self', answer <- fetchall cur ;;
              Ok match answer with
                 | [] => MessageFrame "empty result"
                 | _ => GeoDataFrame answer
                 end)
    else (set_conn self conn,
          Raise (ValueError ("format " +:+ fmt +:+ " unknown"))).
Proof.
  intros Hreply Hv Hpredicate limit sql self' Hexec.
  unfold find_features, bind at 1.
  rewrite (collection_exists_reply _ _ _ _ Hreply). cbn [truthy_item].
  rewrite Hv. cbn [negb]. unfold bind at 1, lift at 1. rewrite Hpredicate.
  rewrite limit_test. fold limit. subst sql self'.
  destruct (String.eqb fmt "geojson").
  - unfold bind, set_sql, cursor_execute, lift, ret. cbn [_conn set_conn].
    rewrite Hexec. destruct (fetchall cur) as [answer | e]; [| reflexivity].
    cbn [rbind].
    destruct (map_outcome (fun row : list scalar => index row 0) answer);
      reflexivity.
  - destruct (String.eqb fmt "geopandas"); [| reflexivity].
    unfold bind, set_sql, cursor_execute, lift, ret. cbn [_conn set_conn].
    rewrite Hexec. destruct (fetchall cur) as [[| row answer] | e]; reflexivity.
Qed.

(** X13.  For a collection that exists, [find_features] in the format
    geojson sends the JSON projection with the translated predicate, and
    with LIMIT [max_records] exactly when [max_records] is 0 or more; it
    returns the objects of the rows in their order, and the property [sql]
    then shows the statement. *)
Theorem find_features_geojson self collection_name query max_records bbox
    bbox_mode bbox_crs conn v predicate conn' objects :
  replies_with (_conn self) (_TABLE_EXISTS_SQL collection_name) conn [[v]] ->
  truthy v = true ->
  _alter_query query bbox bbox_mode "geojson" (Some bbox_crs) = Ok predicate ->
  let limit := if 0 <=? max_records then "LIMIT " +:+ str_int max_records else "" in
  let sql := _FILTER_SQL collection_name predicate limit in
  replies_with conn sql conn' (map (fun o => [o]) objects) ->
  find_features collection_name query max_records "geojson" bbox bbox_mode
    bbox_crs self
  = ({| _conn := conn'; _collections := _collections self; _sql := Some sql |},
     Ok (Features objects)).
Proof.
  intros Hreply Hv Hpredicate limit sql Hrows.
  rewrite (find_features_sent _ _ _ _ _ _ _ _ _ _ _ _ _ Hreply Hv Hpredicate Hrows).
  cbn [String.eqb Ascii.eqb Bool.eqb fetchall rows rbind].
  now rewrite map_outcome_singletons.
Qed.

(** X14.  In the format geopandas [find_features] sends the selection of
    all columns; rows make a data frame, and no row at all makes the frame
    with the message [empty result]. *)
Theorem find_features_geopandas self collection_name query max_records bbox
    bbox_mode bbox_crs conn v predicate conn' answer :
  replies_with (_conn self) (_TABLE_EXISTS_SQL collection_name) conn [[v]] ->
  truthy v = true ->
  _alter_query query bbox bbox_mode "geopandas" (Some bbox_crs) = Ok predicate ->
  let limit := if 0 <=? max_records then "LIMIT " +:+ str_int max_records else "" in
  let sql := _FILTER_LONG_SQL collection_name predicate limit in
  replies_with conn sql conn' answer ->
  find_features collection_name query max_records "geopandas" bbox bbox_mode
    bbox_crs self
  = ({| _conn := conn'; _collections := _collections self; _sql := Some sql |},
     Ok (if decide (answer = []) then MessageFrame "empty result"
         else GeoDataFrame answer)).
Proof.
  intros Hreply Hv Hpredicate limit sql Hrows.
  rewrite (find_features_sent _ _ _ _ _ _ _ _ _ _ _ _ _ Hreply Hv Hpredicate Hrows).
  cbn [String.eqb Ascii.eqb Bool.eqb fetchall rows rbind]. now destruct answer.
Qed.

(** X15.  With a format that is neither geojson nor geopandas
    [find_features] always raises, and the existence check is all that it has
    sent: no filter statement is executed and the property [sql] is as it
    was.  For a collection that exists and no bounding box, the message is
    [format ... not known], from the translator, when a query is given, and
    [format ... unknown] when none is. *)
Theorem find_features_unknown_format self collection_name query max_records fmt
    bbox bbox_mode bbox_crs conn :
  fmt ≠ "geojson" -> fmt ≠ "geopandas" ->
  (forall r,
      execute (_conn self) (_TABLE_EXISTS_SQL collection_name) = (conn, r) ->
      exists e,
        find_features collection_name query max_records fmt bbox bbox_mode
          bbox_crs self
        = (set_conn self conn, Raise e))
  /\ (forall v,
      replies_with (_conn self) (_TABLE_EXISTS_SQL collection_name) conn [[v]] ->
      truthy v = true -> truthy_seq bbox = false ->
      find_features collection_name query max_records fmt bbox bbox_mode
        bbox_crs self
      = (set_conn self conn,
         Raise (ValueError ("format " +:+ fmt +:+
                            (if truthy_str query then " not known" else " unknown"))))).
Proof.
  intros Hjson Hpandas. split.
  - intros r Hexec. unfold find_features, _collection_exists.
    unfold bind at 1 2. rewrite query_unfold, Hexec, table_exists_is_select.
    destruct r as [cur | e]; [| eexists; reflexivity].
    destruct (fetched cur) as [result | e]; [| eexists; reflexivity].
    unfold lift at 1.
    destruct (subscript0 result) as [found | e]; [| eexists; reflexivity].
    destruct (truthy_item found); cbn [negb]; [| eexists; reflexivity].
    unfold bind, lift.
    destruct (_alter_query query bbox bbox_mode fmt (Some bbox_crs));
      [| eexists; reflexivity].
    rewrite !eqb_ne by assumption. eexists. reflexivity.
  - intros v Hreply Hv Hbbox. unfold find_features, bind at 1.
    rewrite (collection_exists_reply _ _ _ _ Hreply). cbn [truthy_item].
    rewrite Hv. cbn [negb]. unfold bind, lift.
    rewrite alter_query_without_bbox by exact Hbbox.
    destruct (truthy_str query); rewrite !eqb_ne by assumption; reflexivity.
Qed.

(** X16.  [find_features] asks whether the collection exists before it
    does anything else: for a collection that does not exist it raises
    [ValueError], whatever the other arguments are; and an error of the
    translator, for the mode or the corners of the bounding box, is raised
    before a filter statement is sent. *)
Theorem find_features_refusals self collection_name query max_records fmt
    bbox bbox_mode bbox_crs conn v :
  replies_with (_conn self) (_TABLE_EXISTS_SQL collection_name) conn [[v]] ->
  (truthy v = false ->
     find_features collection_name query max_records fmt bbox bbox_mode bbox_crs self
     = (set_conn self conn,
        Raise (ValueError ("Collection " +:+ collection_name +:+ " not found"))))
  /\ (forall e,
        truthy v = true ->
        _alter_query query bbox bbox_mode fmt (Some bbox_crs) = Raise e ->
        find_features collection_name query max_records fmt bbox bbox_mode
          bbox_crs self
        = (set_conn self conn, Raise e)).
Proof.
  intros Hreply. split.
  - intros Hv. unfold find_features, bind at 1.
    rewrite (collection_exists_reply _ _ _ _ Hreply). cbn [truthy_item].
    now rewrite Hv.
  - intros e Hv He. unfold find_features, bind at 1.
    rewrite (collection_exists_reply _ _ _ _ Hreply). cbn [truthy_item].
    rewrite Hv. cbn [negb]. unfold bind, lift. now rewrite He.
Qed.

(** X17.  [find_feature] asks for one row, with the SRID 4326 whatever
    [bbox_crs] is, and returns the object of the first row, or [None] when
    there is no row. *)
Theorem remote_find_feature_geojson self collection_name query bbox bbox_mode
    bbox_crs conn v predicate conn' objects :
  replies_with (_conn self) (_TABLE_EXISTS_SQL collection_name) conn [[v]] ->
  truthy v = true ->
  _alter_query query bbox bbox_mode "geojson" (Some 4326) = Ok predicate ->
  let sql := _FILTER_SQL collection_name predicate "LIMIT 1" in
  replies_with conn sql conn' (map (fun o => [o]) objects) ->
  find_feature collection_name query "geojson" bbox bbox_mode bbox_crs self
  = ({| _conn := conn'; _collections := _collections self; _sql := Some sql |},
     Ok (head objects)).
Proof.
  intros Hreply Hv Hpredicate sql Hrows. unfold find_feature, bind.
  rewrite (find_features_sent _ _ _ 1 _ _ _ _ _ _ _ _ _ Hreply Hv Hpredicate Hrows).
  cbn [String.eqb Ascii.eqb Bool.eqb fetchall rows rbind].
  now rewrite map_outcome_singletons.
Qed.

(** *** [add_feature] *)


(** X19.  The INSERT statement of a feature is built exactly when the
    feature has properties with a key [S_NAME], has a geometry, and both
    serialize; in every other case [insert_sql] raises and nothing is sent. *)
Theorem insert_sql_built_iff collection_name feature :
  is_Ok (insert_sql collection_name feature) = true
  <-> exists properties geometry,
        f_properties feature = Some properties
        /\ f_geometry feature = Some geometry
        /\ is_Ok (json_dumps
                    (JObject (map (fun kv => (kv.1, JScalar kv.2)) properties)))
           = true
        /\ is_Some (assoc "S_NAME" properties)
        /\ is_Ok (json_dumps geometry) = true.
Proof.
  unfold insert_sql. split.
  - destruct (f_properties feature) as [properties |]; [| discriminate].
    destruct (f_geometry feature) as [geometry |]; [| discriminate].
    cbn [getitem rbind].
    destruct (json_dumps (JObject _)) as [text |] eqn:Hprops; [| discriminate].
    cbn [rbind].
    destruct (assoc "S_NAME" properties) as [name |] eqn:Hname; [| discriminate].
    cbn [getitem rbind].
    destruct (json_dumps geometry) as [text' |] eqn:Hgeo; [| discriminate].
    intros _. exists properties, geometry.
    rewrite Hprops, Hgeo. repeat split; eauto.
  - intros (properties & geometry & -> & -> & Hprops & [name Hname] & Hgeo).
    cbn [getitem rbind].
    destruct (json_dumps (JObject _)); [| discriminate]. cbn [rbind].
    rewrite Hname. cbn [getitem rbind].
    destruct (json_dumps geometry); [| discriminate]. reflexivity.
Qed.

(** *** Single values *)

(** X20.  [_get_srid_from_collection] returns the first column of the row
    that the statement answers with; for a collection without rows it raises
    [IndexError]. *)
Theorem get_srid_from_collection_reply self collection_name conn :
  (replies_with (_conn self) (_GET_SRID_SQL collection_name) conn [] ->
     _get_srid_from_collection collection_name self
     = (set_conn self conn, Raise IndexError))
  /\ (forall srid more,
        replies_with (_conn self) (_GET_SRID_SQL collection_name) conn
          [srid :: more] ->
        _get_srid_from_collection collection_name self
        = (set_conn self conn, Ok (ItemValue srid))).
Proof.
  assert (Hselect : contains "SELECT" (_GET_SRID_SQL collection_name) = true)
    by reflexivity.
  split.
  - intros Hreply. unfold _get_srid_from_collection, bind.
    now rewrite (query_select_reply _ _ _ _ Hselect Hreply).
  - intros srid more Hreply. unfold _get_srid_from_collection, bind.
    now rewrite (query_select_reply _ _ _ _ Hselect Hreply).
Qed.

(** X21.  Building the service sends the table listing, and nothing else.
    When the listing answers with no or with several names, these are the
    [collections]; when it answers with exactly one name, [collections]
    holds the first character of that name, because [query] hands back the
    row itself and the comprehension runs over its one column; when the
    listing fails, so does the construction. *)
Theorem init_lists_tables conn conn' :
  (forall names,
      List.length names ≠ 1%nat ->
      replies_with conn _GET_TABLES_SQL conn' (map (fun n => [n]) names) ->
      init conn = (conn', Ok {| _conn := conn'; _collections := names;
                                _sql := None |}))
  /\ (forall c name,
        replies_with conn _GET_TABLES_SQL conn' [[PStr (String c name)]] ->
        init conn
        = (conn', Ok {| _conn := conn';
                        _collections := [PStr (String c EmptyString)];
                        _sql := None |}))
  /\ (forall e,
        execute conn _GET_TABLES_SQL = (conn', Raise e) ->
        init conn = (conn', Raise e)).
Proof.
  assert (Hselect : contains "SELECT" _GET_TABLES_SQL = true) by reflexivity.
  split; [| split].
  - intros names Hlen Hreply. unfold init, _get_collections, bind.
    rewrite (query_select_reply {| _conn := conn; _collections := []; _sql := None |}
               _ _ _ Hselect Hreply).
    destruct names as [| n [| n' names]]; cbn [List.length] in Hlen;
      [reflexivity | lia |].
    cbn [map]. unfold lift.
    change ([n] :: [n'] :: map (fun n => [n]) names)
      with (map (fun n => [n]) (n :: n' :: names)).
    now rewrite map_outcome_singletons.
  - intros c name Hreply. unfold init, _get_collections, bind.
    now rewrite (query_select_reply {| _conn := conn; _collections := []; _sql := None |}
                   _ _ _ Hselect Hreply).
  - intros e Hexec. unfold init, _get_collections, bind.
    rewrite query_unfold. cbn [_conn]. now rewrite Hexec.
Qed.

End RemoteProtocol.

(** *** The statements of [add_features], as a mock connection records them *)

Section InsertTrace.
Context `{JsonModule}.
Import RemoteGeoPostgreSQLService.

(** X22.  When every feature of the list has an INSERT statement, and no
    statement contains SELECT, [add_features] executes the statements in the
    order of the list and commits after each one: the connection records
    execute, commit, execute, commit, and so on. *)
Theorem add_features_trace (collection_name : string) (features : list Feature)
    (statements : list string) (calls : list Mock.Call) (names : list scalar)
    (last_sql : option string) :
  map_outcome (insert_sql collection_name) features = Ok statements ->
  Forall (fun sql => contains "SELECT" sql = false) statements ->
  @add_features _ Mock.connection _ collection_name features
    {| _conn := asked calls; _collections := names; _sql := last_sql |}
  = ({| _conn := asked (calls ++ committed_one_by_one statements);
        _collections := names; _sql := last_sql |},
     Ok "Features Added").
Proof.
  revert statements calls.
  induction features as [| f features IH]; intros statements calls Hmap Hplain.
  - injection Hmap as <-. cbn. now rewrite app_nil_r.
  - cbn [map_outcome] in Hmap.
    destruct (insert_sql collection_name f) as [sql |] eqn:Hf; [| discriminate].
    cbn [rbind] in Hmap.
    destruct (map_outcome (insert_sql collection_name) features) as [rest |];
      [| discriminate].
    injection Hmap as <-. apply Forall_cons in Hplain as [Hsql Hrest].
    rewrite add_features_cons, Hf, query_unfold.
    cbn [_conn execute Mock.connection Mock.mock_execute asked Mock.replies Mock.calls].
    rewrite Hsql.
    change (set_conn _ _)
      with {| _conn := asked ((calls ++ [Mock.Executed sql]) ++ [Mock.Committed]);
              _collections := names; _sql := last_sql |}.
    rewrite (IH rest _ eq_refl Hrest). unfold committed_one_by_one.
    cbn [flat_map app]. now rewrite <- !app_assoc.
Qed.

End InsertTrace.

(** X22, at a concrete input: two features. *)
Lemma add_features_trace_witness :
  exists first second,
    @RemoteGeoPostgreSQLService.insert_sql Mock.json_module "parks" (park 1 "north")
      = Ok first
    /\ @RemoteGeoPostgreSQLService.insert_sql Mock.json_module "parks" (park 2 "south")
      = Ok second
    /\ @RemoteGeoPostgreSQLService.add_features _ Mock.connection Mock.json_module
         "parks" [park 1 "north"; park 2 "south"] (fresh [] [])
       = ({| RemoteGeoPostgreSQLService._conn :=
               asked [Mock.Executed first; Mock.Committed;
                      Mock.Executed second; Mock.Committed];
             RemoteGeoPostgreSQLService._collections := [];
             RemoteGeoPostgreSQLService._sql := None |},
          Ok "Features Added").
Proof.
  do 2 eexists. split; [reflexivity |]. split; [reflexivity |].
  apply (@add_features_trace Mock.json_module "parks"
           [park 1 "north"; park 2 "south"] _ [] [] None eq_refl).
  repeat constructor.
Defined.

(** ** The column-type mapper: when the column is plain *)

Lemma split_length (c : ascii) (s : string) :
  List.length (split c s) = S (count_char c s).
Proof.
  induction s as [| x s IH]; [reflexivity |].
  cbn [split count_char]. destruct (Ascii.eqb x c); cbn [List.length Nat.add].
  - now rewrite IH.
  - destruct (split c s) as [| piece pieces]; [discriminate | exact IH].
Qed.

(** X23.  For a descriptor with [float] and without [int], the numeric
    column has no precision unless the descriptor has exactly one colon and
    exactly one dot behind it: no colon, two colons, no dot or two dots all
    give the plain [numeric]. *)
Theorem make_column_plain_numeric (name typ : string) :
  contains "int" typ = false -> contains "float" typ = true ->
  (count_char ":" typ ≠ 1%nat ->
     _make_column name typ = Ok (name +:+ " numeric"))
  /\ (forall base rest,
        typ = base +:+ ":" +:+ rest ->
        contains ":" base = false -> contains ":" rest = false ->
        count_char "." rest ≠ 1%nat ->
        _make_column name typ = Ok (name +:+ " numeric")).
Proof.
  intros Hint Hfloat.
  assert (Hstr : String.eqb typ "str" = false).
  { destruct (String.eqb_spec typ "str") as [-> | _]; [discriminate | reflexivity]. }
  unfold _make_column. rewrite Hstr, Hint, Hfloat. split.
  - intros Hcolons.
    assert (Hlen : Nat.eqb (List.length (split ":" typ)) 2 = false).
    { apply Nat.eqb_neq. rewrite split_length. lia. }
    rewrite !Hlen. now rewrite append_nil_r.
  - intros base rest -> Hbase Hrest Hdots.
    change (":" +:+ rest) with (String ":" rest).
    rewrite (split_app ":" base rest Hbase), (split_none ":" rest Hrest).
    cbn [List.length Nat.eqb nth].
    assert (Hlen : Nat.eqb (List.length (split "." rest)) 2 = false).
    { apply Nat.eqb_neq. rewrite split_length. lia. }
    rewrite Hlen. now rewrite append_nil_r.
Qed.

(** X23, at a concrete input: a precision without a scale. *)
Lemma make_column_plain_numeric_witness :
  _make_column "height" "float:8" = Ok "height numeric".
Proof.
  apply (proj2 (make_column_plain_numeric "height" "float:8" eq_refl eq_refl)
           "float" "8" eq_refl eq_refl eq_refl).
  cbn. lia.
Defined.

(** ** The remote service at concrete inputs *)

(** A mock connection keeps being uncommitted when it executes. *)
Lemma mock_execute_uncommitted (c : Mock.Conn) (sql : string) :
  uncommitted c -> uncommitted (Mock.mock_execute c sql).1.
Proof.
  unfold uncommitted, Mock.mock_execute. intros Hc.
  destruct (Mock.replies c); cbn [fst Mock.calls];
    intros [Hin | Hin%list_elem_of_singleton]%elem_of_app;
    solve [contradiction | discriminate].
Qed.

(** X9, at a concrete input: the descriptor [date]. *)
Lemma new_collection_refusals_witness :
  @RemoteGeoPostgreSQLService.new_collection _ Mock.connection "sites" dated_schema
    (fresh [Mock.select [[PBool false]]] [])
  = (RemoteGeoPostgreSQLService.set_conn (fresh [Mock.select [[PBool false]]] [])
       (asked [Mock.Executed (_TABLE_EXISTS_SQL "sites")]),
     Raise (NotImplementedError "Column type date not implemented")).
Proof.
  apply (proj2 (proj2
           (@new_collection_refusals _ Mock.connection
              (fresh [Mock.select [[PBool false]]] []) "sites" dated_schema
              (asked [Mock.Executed (_TABLE_EXISTS_SQL "sites")]) (PBool false)
              eq_refl))
           [("height", "float:8.2")] "built" "date" [("name", "str")]
           eq_refl eq_refl).
  - repeat constructor.
  - discriminate.
  - reflexivity.
  - reflexivity.
Defined.



(** X12, at a concrete input: a search on a mock connection. *)
Lemma reads_only_execute_witness :
  uncommitted
    (RemoteGeoPostgreSQLService._conn
       (@RemoteGeoPostgreSQLService.find_features _ Mock.connection "parks"
          (Some "open") 3 "geojson" None "contains" 4326
          (fresh [Mock.select [[PBool true]]; Mock.select [[PStr "north"]]] [])).1).
Proof.
  apply (proj1 (@reads_only_execute _ Mock.connection) "parks" (Some "open") 3
           "geojson" None "contains" 4326 uncommitted mock_execute_uncommitted).
  intros Hin. now apply elem_of_nil in Hin.
Defined.

(** X13, at a concrete input: two objects, a limit of 3. *)
Lemma find_features_geojson_witness :
  let sql := _FILTER_SQL "parks" "properties->>open" "LIMIT 3" in
  @RemoteGeoPostgreSQLService.find_features _ Mock.connection "parks"
    (Some "open") 3 "geojson" None "contains" 4326
    (fresh [Mock.select [[PBool true]];
            Mock.select [[PStr "north"]; [PStr "south"]]] [])
  = ({| RemoteGeoPostgreSQLService._conn :=
          asked [Mock.Executed (_TABLE_EXISTS_SQL "parks"); Mock.Executed sql];
        RemoteGeoPostgreSQLService._collections := [];
        RemoteGeoPostgreSQLService._sql := Some sql |},
     Ok (Features [PStr "north"; PStr "south"])).
Proof.
  exact (@find_features_geojson _ Mock.connection
           (fresh [Mock.select [[PBool true]];
                   Mock.select [[PStr "north"]; [PStr "south"]]] [])
           "parks" (Some "open") 3 None "contains" 4326
           {| Mock.replies := [Mock.select [[PStr "north"]; [PStr "south"]]];
              Mock.calls := [Mock.Executed (_TABLE_EXISTS_SQL "parks")] |}
           (PBool true) "properties->>open"
           (asked [Mock.Executed (_TABLE_EXISTS_SQL "parks");
                   Mock.Executed (_FILTER_SQL "parks" "properties->>open" "LIMIT 3")])
           [PStr "north"; PStr "south"] eq_refl eq_refl eq_refl eq_refl).
Defined.

(** X14, at a concrete input: no row, no limit. *)
Lemma find_features_geopandas_witness :
  let sql := _FILTER_LONG_SQL "parks" "TRUE" "" in
  @RemoteGeoPostgreSQLService.find_features _ Mock.connection "parks"
    None (-1) "geopandas" None "contains" 4326
    (fresh [Mock.select [[PBool true]]; Mock.select []] [])
  = ({| RemoteGeoPostgreSQLService._conn :=
          asked [Mock.Executed (_TABLE_EXISTS_SQL "parks"); Mock.Executed sql];
        RemoteGeoPostgreSQLService._collections := [];
        RemoteGeoPostgreSQLService._sql := Some sql |},
     Ok (MessageFrame "empty result")).
Proof.
  exact (@find_features_geopandas _ Mock.connection
           (fresh [Mock.select [[PBool true]]; Mock.select []] [])
           "parks" None (-1) None "contains" 4326
           {| Mock.replies := [Mock.select []];
              Mock.calls := [Mock.Executed (_TABLE_EXISTS_SQL "parks")] |}
           (PBool true) "TRUE"
           (asked [Mock.Executed (_TABLE_EXISTS_SQL "parks");
                   Mock.Executed (_FILTER_LONG_SQL "parks" "TRUE" "")])
           [] eq_refl eq_refl eq_refl eq_refl).
Defined.

(** X15, at a concrete input: the format [xml], without a query. *)
Lemma find_features_unknown_format_witness :
  @RemoteGeoPostgreSQLService.find_features _ Mock.connection "parks"
    None (-1) "xml" None "contains" 4326
    (fresh [Mock.select [[PBool true]]; Mock.select []] [])
  = (RemoteGeoPostgreSQLService.set_conn
       (fresh [Mock.select [[PBool true]]; Mock.select []] [])
       {| Mock.replies := [Mock.select []];
          Mock.calls := [Mock.Executed (_TABLE_EXISTS_SQL "parks")] |},
     Raise (ValueError "format xml unknown")).
Proof.
  exact (proj2
           (@find_features_unknown_format _ Mock.connection
              (fresh [Mock.select [[PBool true]]; Mock.select []] [])
              "parks" None (-1) "xml" None "contains" 4326
              {| Mock.replies := [Mock.select []];
                 Mock.calls := [Mock.Executed (_TABLE_EXISTS_SQL "parks")] |}
              ltac:(discriminate) ltac:(discriminate))
           (PBool true) eq_refl eq_refl eq_refl).
Defined.

(** X16, at a concrete input: a collection that does not exist. *)
Lemma find_features_refusals_witness :
  @RemoteGeoPostgreSQLService.find_features _ Mock.connection "lakes"
    (Some "open") 3 "geojson" None "contains" 4326
    (fresh [Mock.select [[PBool false]]] [])
  = (RemoteGeoPostgreSQLService.set_conn (fresh [Mock.select [[PBool false]]] [])
       (asked [Mock.Executed (_TABLE_EXISTS_SQL "lakes")]),
     Raise (ValueError "Collection lakes not found")).
Proof.
  exact (proj1
           (@find_features_refusals _ Mock.connection
              (fresh [Mock.select [[PBool false]]] [])
              "lakes" (Some "open") 3 "geojson" None "contains" 4326
              (asked [Mock.Executed (_TABLE_EXISTS_SQL "lakes")]) (PBool false)
              eq_refl)
           eq_refl).
Defined.

(** X17, at a concrete input: a bounding box in another reference system. *)
Lemma remote_find_feature_geojson_witness :
  let sql :=
    _FILTER_SQL "parks"
      " ST_Within(' SRID=4326;POLYGON((1 2,1 4,3 4,3 2,1 2))::geometry', geometry)"
      "LIMIT 1" in
  @RemoteGeoPostgreSQLService.find_feature _ Mock.connection "parks" None "geojson"
    (Some [PInt 1; PInt 2; PInt 3; PInt 4]) "within" 3857
    (fresh [Mock.select [[PBool true]]; Mock.select [[PStr "north"]]] [])
  = ({| RemoteGeoPostgreSQLService._conn :=
          asked [Mock.Executed (_TABLE_EXISTS_SQL "parks"); Mock.Executed sql];
        RemoteGeoPostgreSQLService._collections := [];
        RemoteGeoPostgreSQLService._sql := Some sql |},
     Ok (Some (PStr "north"))).
Proof.
  exact (@remote_find_feature_geojson _ Mock.connection
           (fresh [Mock.select [[PBool true]]; Mock.select [[PStr "north"]]] [])
           "parks" None (Some [PInt 1; PInt 2; PInt 3; PInt 4]) "within" 3857
           {| Mock.replies := [Mock.select [[PStr "north"]]];
              Mock.calls := [Mock.Executed (_TABLE_EXISTS_SQL "parks")] |}
           (PBool true) _ _ [PStr "north"] eq_refl eq_refl eq_refl eq_refl).
Defined.


(** X20, at a concrete input: a collection without rows. *)
Lemma get_srid_from_collection_reply_witness :
  @RemoteGeoPostgreSQLService._get_srid_from_collection _ Mock.connection "parks"
    (fresh [Mock.select []] [])
  = (RemoteGeoPostgreSQLService.set_conn (fresh [Mock.select []] [])
       (asked [Mock.Executed (_GET_SRID_SQL "parks")]),
     Raise IndexError).
Proof.
  exact (proj1 (@get_srid_from_collection_reply _ Mock.connection
                  (fresh [Mock.select []] []) "parks"
                  (asked [Mock.Executed (_GET_SRID_SQL "parks")]))
           eq_refl).
Defined.

(** X21, at a concrete input: a database with the one table [parks]. *)
Lemma init_lists_tables_witness :
  @RemoteGeoPostgreSQLService.init _ Mock.connection
    {| Mock.replies := [Mock.select [[PStr "parks"]]]; Mock.calls := [] |}
  = (asked [Mock.Executed _GET_TABLES_SQL],
     Ok {| RemoteGeoPostgreSQLService._conn := asked [Mock.Executed _GET_TABLES_SQL];
           RemoteGeoPostgreSQLService._collections := [PStr "p"];
           RemoteGeoPostgreSQLService._sql := None |}).
Proof.
  exact (proj1 (proj2 (@init_lists_tables _ Mock.connection
                         {| Mock.replies := [Mock.select [[PStr "parks"]]];
                            Mock.calls := [] |}
                         (asked [Mock.Executed _GET_TABLES_SQL])))
           "p"%char "arks" eq_refl).
Defined.

(** X24.  The two copies of the mapper, [_make_column] and
    [_make_insert_column], give the same declaration, or the same error,
    for every name and descriptor. *)
Theorem make_insert_column_agrees (name typ : string) :
  _make_insert_column name typ = _make_column name typ.
Proof.
  unfold _make_insert_column, _make_column.
  destruct (String.eqb typ "str"); [reflexivity |].
  destruct (contains "int" typ); [reflexivity |].
  destruct (contains "float" typ); reflexivity.
Qed.
